(** * The Click: the ledger store and the game service

    A shallow embedding of [server/database.js] (the ledger store on top of
    better-sqlite3) and of [server/services/gameService.js] ([handleClick]
    and [performAutoIncrement]), together with the properties of the game
    engine that follow from that code.

    Modelling conventions.
    - A JavaScript number holding an amount or a distance is an exact
      rational ([Q]); [Math.round(v * 1000) / 1000] is [round3].  Values
      written by the code are kept in lowest terms ([Qred]), so that
      JavaScript's [===] on numbers is Leibniz equality on them.  The
      amounts of the ledger are multiples of 0.001 far below 2^53 / 1000,
      where the double arithmetic of the code yields the double nearest to
      the exact result; [parseFloat] of a number is that number.
    - Click coordinates are [Z]: the [typeof]/[Number.isInteger] tests of
      [handleClick] hold by typing, the range test is kept.
    - The four SQLite tables are the four fields of [Store].  The
      AUTOINCREMENT row ids are never read by the code and are left out.
    - [new Date()] is an ISO-8601 string [now], sampled once per service
      call; [Math.random()] results are passed in explicitly.
    - A database function is a computation [Db A]: it takes the store and
      returns a value or a thrown failure, with the store it leaves.
    - One Node process runs its synchronous calls one after the other.
      Writes of a second process on the same database file are a function
      [env] on stores, applied where this process is between its reads and
      its transaction; [quiet] is the case of a single process. *)

From Stdlib Require Import ZArith QArith Qround Lia Lqa Ascii String.
From stdpp Require Import base gmap strings.

Local Open Scope Z_scope.

(** ** Numbers *)

Module Num.

(** [Math.round(v)]: nearest integer, halves rounded towards +infinity. *)
Definition Math_round (v : Q) : Z := Qfloor (v + 0.5).

(** [Math.floor(v)]. *)
Definition Math_floor (v : Q) : Z := Qfloor v.

(** [Math.round(v * 1000) / 1000]. *)
Definition round3 (v : Q) : Q := Qred (inject_Z (Math_round (v * 1000)) / 1000).

(** [Math.round(Math.sqrt(n) * 1000)] for an integer [n >= 0], computed
    exactly: it is [floor ((floor (2000 * sqrt n) + 1) / 2)]. *)
Definition round_sqrt_milli (n : Z) : Z := (Z.sqrt (4000000 * n) + 1) / 2.

(** [a < b] on JavaScript numbers. *)
Definition ltb (a b : Q) : bool := negb (Qle_bool b a).

(** [Math.floor(Math.random() * 1000)], [u] being the value of
    [Math.random()]. *)
Definition random_coordinate (u : Q) : Z := Math_floor (u * 1000).

End Num.

(** ** Dates *)

(** [iso.split('T')[0]]: the part of an ISO timestamp before the first T. *)
Fixpoint isoDate (iso : string) : string :=
  match iso with
  | EmptyString => EmptyString
  | String c rest => if Ascii.eqb c "T"%char then EmptyString else String c (isoDate rest)
  end.

(** ** The ledger store *)

(** The row [id = 1] of [jackpot_state]. *)
Record JackpotRow := mkJackpotRow {
  js_current_amount : Q;
  js_last_update : string;
  js_last_modified_by : string;
  js_version : Z
}.

(** A row of [jackpot_history]. *)
Record HistoryRow := mkHistoryRow {
  jh_timestamp : string;
  jh_previous_amount : Q;
  jh_new_amount : Q;
  jh_action_type : string;
  jh_user_id : string
}.

(** A row of [daily_target]; the UNIQUE column [target_date] is the key of
    the table. *)
Record TargetRow := mkTargetRow {
  dt_target_x : Z;
  dt_target_y : Z;
  dt_version : Z
}.

(** [click_attempts] maps its UNIQUE key [(identifier, attempt_date)] to the
    row's [timestamp]. *)
Record Store := mkStore {
  jackpot_state : option JackpotRow;
  jackpot_history : list HistoryRow;
  daily_target : gmap string TargetRow;
  click_attempts : gmap (string * string) string
}.

Definition empty_store : Store := mkStore None [] ∅ ∅.

Definition set_jackpot_state (r : option JackpotRow) (s : Store) : Store :=
  mkStore r (jackpot_history s) (daily_target s) (click_attempts s).

Definition set_jackpot_history (h : list HistoryRow) (s : Store) : Store :=
  mkStore (jackpot_state s) h (daily_target s) (click_attempts s).

Definition set_daily_target (t : gmap string TargetRow) (s : Store) : Store :=
  mkStore (jackpot_state s) (jackpot_history s) t (click_attempts s).

Definition set_click_attempts (a : gmap (string * string) string) (s : Store) : Store :=
  mkStore (jackpot_state s) (jackpot_history s) (daily_target s) a.

(** ** Database computations *)

(** What a statement or the JavaScript around it can throw. *)
Inductive Failure :=
| SqliteConstraintUnique (table : string)
| JsError (message : string).

Definition Db (A : Type) : Type := Store -> (Failure + A) * Store.

Definition ret {A} (a : A) : Db A := fun s => (inr a, s).

Definition throw {A} (e : Failure) : Db A := fun s => (inl e, s).

Definition bind {A B} (m : Db A) (k : A -> Db B) : Db B :=
  fun s => match m s with
           | (inr a, s') => k a s'
           | (inl e, s') => (inl e, s')
           end.

Declare Scope db_scope.
Delimit Scope db_scope with db.
Notation "x <~ m ;; k" := (bind m (fun x => k))
  (at level 100, m at next level, right associativity) : db_scope.
Notation "m ;;; k" := (bind m (fun _ => k))
  (at level 100, right associativity) : db_scope.

(** [db.transaction(fn)()]: runs [fn] between BEGIN and COMMIT; when [fn]
    throws, the transaction is rolled back and the exception is thrown
    again. *)
Definition transaction {A} (fn : Db A) : Db A :=
  fun s => match fn s with
           | (inr a, s') => (inr a, s')
           | (inl e, _) => (inl e, s)
           end.

(** [try { body } catch (error) { return handler }]. *)
Definition try_catch {A} (body : Db A) (handler : Failure -> A) : Store -> A * Store :=
  fun s => match body s with
           | (inr a, s') => (a, s')
           | (inl e, s') => (handler e, s')
           end.

(** Writes that other connections to the same database file commit
    between two statements of this connection. *)
Definition concurrently (env : Store -> Store) : Db unit :=
  fun s => (inr tt, env s).

(** No other writer. *)
Definition quiet : Store -> Store := fun s => s.

Local Open Scope string_scope.
Local Open Scope db_scope.

(** ** [server/database.js] *)

(** The object [{ current_amount }] that [getJackpot] returns. *)
Record Jackpot := mkJackpot { current_amount : Q }.

(** The object [{ x, y, date }] that the target functions return. *)
Record TargetPixel := mkTargetPixel { tp_x : Z; tp_y : Z; tp_date : string }.

(** [initDb]: the tables exist from here on; the jackpot row and the
    target of the current date are inserted when they are missing. *)
Definition initDb (u1 u2 : Q) (now : string) (s : Store) : Store :=
  let s1 :=
    match jackpot_state s with
    | Some _ => s
    | None => set_jackpot_state (Some (mkJackpotRow 100 now "system" 1)) s
    end in
  let currentDate := isoDate now in
  match daily_target s1 !! currentDate with
  | Some _ => s1
  | None =>
      set_daily_target
        (<[currentDate := mkTargetRow (Num.random_coordinate u1) (Num.random_coordinate u2) 1]>
           (daily_target s1)) s1
  end.

Definition getJackpot : Db Jackpot :=
  fun s =>
    (inr (mkJackpot match jackpot_state s with
                    | Some row => js_current_amount row
                    | None => 0
                    end), s).

Definition updateJackpot (newAmount : Q) (userId : string) (now : string) : Db bool :=
  if Num.ltb newAmount 0 || Num.ltb 10000000 newAmount
  then throw (JsError "Invalid jackpot amount")
  else
    let roundedAmount := Num.round3 newAmount in
    fun s =>
      match jackpot_state s with
      | Some row =>
          (inr true,
           set_jackpot_state
             (Some (mkJackpotRow roundedAmount now userId (js_version row + 1))) s)
      | None => (inr false, s)
      end.

Definition resetJackpot (baseAmount : Q) (userId : string) (now : string) : Db bool :=
  updateJackpot baseAmount userId now.

Definition logJackpotHistory (previousAmount newAmount : Q) (actionType userId : string)
    (now : string) : Db bool :=
  fun s =>
    (inr true,
     set_jackpot_history
       (jackpot_history s ++ [mkHistoryRow now previousAmount newAmount actionType userId]) s).

(** [u1], [u2]: what [Math.random()] returns when the function draws. *)
Definition getOrCreateDailyTargetPixel (u1 u2 : Q) (now : string) : Db TargetPixel :=
  fun s =>
    let currentDate := isoDate now in
    match daily_target s !! currentDate with
    | Some targetRow =>
        (inr (mkTargetPixel (dt_target_x targetRow) (dt_target_y targetRow) currentDate), s)
    | None =>
        let newX := Num.random_coordinate u1 in
        let newY := Num.random_coordinate u2 in
        (inr (mkTargetPixel newX newY currentDate),
         set_daily_target (<[currentDate := mkTargetRow newX newY 1]> (daily_target s)) s)
    end.

(** INSERT ... ON CONFLICT(target_date) DO UPDATE SET target_x, target_y,
    version = daily_target.version + 1. *)
Definition forceNewDailyTarget (u1 u2 : Q) (now : string) : Db TargetPixel :=
  fun s =>
    let currentDate := isoDate now in
    let newX := Num.random_coordinate u1 in
    let newY := Num.random_coordinate u2 in
    let row :=
      match daily_target s !! currentDate with
      | Some old => mkTargetRow newX newY (dt_version old + 1)
      | None => mkTargetRow newX newY 1
      end in
    (inr (mkTargetPixel newX newY currentDate),
     set_daily_target (<[currentDate := row]> (daily_target s)) s).

(** The INSERT fails on UNIQUE(identifier, attempt_date) when the key is
    taken; the failure is thrown again by the function. *)
Definition recordClickAttempt (identifier attempt_date : string) (now : string) : Db bool :=
  fun s =>
    match click_attempts s !! (identifier, attempt_date) with
    | Some _ => (inl (SqliteConstraintUnique "click_attempts"), s)
    | None =>
        (inr true,
         set_click_attempts (<[(identifier, attempt_date) := now]> (click_attempts s)) s)
    end.

Definition hasAttemptedToday (identifier attempt_date : string) (s : Store) : bool :=
  match click_attempts s !! (identifier, attempt_date) with
  | Some _ => true
  | None => false
  end.

(** ** [server/services/gameService.js] *)

Inductive ErrorType := validation | attempt_limit | server_error.

(** The objects [handleClick] returns: [status: 'error'] with its [type]
    and [message], or [status: 'success'] with [type: 'win'] or
    [type: 'miss']. *)
Inductive ClickResult :=
| ClickError (type : ErrorType) (message : string)
| ClickWin (distance : Q) (targetX targetY : Z) (wonAmount newBaseJackpotAmount : Q)
| ClickMiss (distance : Q) (targetX targetY : Z) (newJackpotAmount : Q).

(** The objects [performAutoIncrement] returns. *)
Inductive TickResult :=
| TickSuccess (newJackpotAmount : Q)
| TickError (type : ErrorType) (message : string).

(** The values [Math.random()] returns during one [handleClick]: inside
    [getOrCreateDailyTargetPixel] and inside [forceNewDailyTarget]. *)
Record Random := mkRandom {
  create_u1 : Q; create_u2 : Q;
  force_u1 : Q; force_u2 : Q
}.

(** [Math.round(Math.sqrt(Math.pow(tx - x, 2) + Math.pow(ty - y, 2)) * 1000) / 1000]. *)
Definition roundedDistance (targetPixel : TargetPixel) (x y : Z) : Q :=
  Qred (inject_Z (Num.round_sqrt_milli ((tp_x targetPixel - x) ^ 2 + (tp_y targetPixel - y) ^ 2))
        / 1000).

Definition winTransaction (baseAmount wonAmount : Q) (userIdentifier today : string)
    (rnd : Random) (now : string) : Db unit :=
  transaction (
    reset <~ resetJackpot baseAmount userIdentifier now ;;
    (if negb reset then throw (JsError "Failed to reset jackpot") else ret tt) ;;;
    logJackpotHistory wonAmount baseAmount "JACKPOT_WIN" userIdentifier now ;;;
    forceNewDailyTarget (force_u1 rnd) (force_u2 rnd) now ;;;
    recordClickAttempt userIdentifier today now ;;;
    ret tt).

Definition missTransaction (currentAmount roundedNewJackpotAmount : Q)
    (userIdentifier today : string) (now : string) : Db unit :=
  transaction (
    updated <~ updateJackpot roundedNewJackpotAmount userIdentifier now ;;
    (if negb updated then throw (JsError "Failed to update jackpot on miss") else ret tt) ;;;
    logJackpotHistory currentAmount roundedNewJackpotAmount "INCREMENT" userIdentifier now ;;;
    recordClickAttempt userIdentifier today now ;;;
    ret tt).

(** [env] is what other connections commit after this call has read the
    target and the jackpot and before its transaction begins; [quiet] when
    there is none. *)
Definition handleClick (env : Store -> Store) (rnd : Random) (now : string)
    (x y : Z) (userIdentifier : string) (s : Store) : ClickResult * Store :=
  if ((x <? 0) || (999 <? x) || (y <? 0) || (999 <? y))%Z
  then (ClickError validation "Invalid coordinates.", s)
  else
    let today := isoDate now in
    if hasAttemptedToday userIdentifier today s
    then (ClickError attempt_limit "You have already made your attempt for today.", s)
    else
      try_catch (
        targetPixel <~ getOrCreateDailyTargetPixel (create_u1 rnd) (create_u2 rnd) now ;;
        let roundedDistance := roundedDistance targetPixel x y in
        currentJackpotState <~ getJackpot ;;
        concurrently env ;;;
        if Qeq_bool roundedDistance 0
        then
          let baseAmount := 100%Q in
          let wonAmount := current_amount currentJackpotState in
          winTransaction baseAmount wonAmount userIdentifier today rnd now ;;;
          ret (ClickWin roundedDistance (tp_x targetPixel) (tp_y targetPixel)
                 wonAmount baseAmount)
        else
          let newJackpotAmount := (current_amount currentJackpotState + 0.001)%Q in
          let roundedNewJackpotAmount := Num.round3 newJackpotAmount in
          missTransaction (current_amount currentJackpotState) roundedNewJackpotAmount
            userIdentifier today now ;;;
          ret (ClickMiss roundedDistance (tp_x targetPixel) (tp_y targetPixel)
                 roundedNewJackpotAmount))
        (fun _ => ClickError server_error "An unexpected server error occurred.") s.

Definition performAutoIncrement (env : Store -> Store) (now : string) (s : Store)
    : TickResult * Store :=
  try_catch (
    currentJackpot <~ getJackpot ;;
    let newAmount := (current_amount currentJackpot + 0.01)%Q in
    let roundedAmount := Num.round3 newAmount in
    concurrently env ;;;
    transaction (
      updated <~ updateJackpot roundedAmount "system" now ;;
      (if negb updated then throw (JsError "Auto-increment updateJackpot failed") else ret tt) ;;;
      logJackpotHistory (current_amount currentJackpot) roundedAmount "AUTO_INCREMENT" "system" now ;;;
      ret tt) ;;;
    ret (TickSuccess roundedAmount))
    (fun _ => TickError server_error "Auto increment failed.") s.

(** ** The clock reads of a click *)

(** Each [new Date()] of one [handleClick], in the order of the reads: for
    [today] in [handleClick] itself, then inside
    [getOrCreateDailyTargetPixel], [updateJackpot], [logJackpotHistory],
    [forceNewDailyTarget] (on a win) and [recordClickAttempt]. *)
Record Clock := mkClock {
  at_today : string;
  at_target : string;
  at_update : string;
  at_log : string;
  at_force : string;
  at_record : string
}.

(** A call during which the clock does not move. *)
Definition steady (now : string) : Clock := mkClock now now now now now now.

Definition winTransactionAt (baseAmount wonAmount : Q) (userIdentifier today : string)
    (rnd : Random) (clock : Clock) : Db unit :=
  transaction (
    reset <~ resetJackpot baseAmount userIdentifier (at_update clock) ;;
    (if negb reset then throw (JsError "Failed to reset jackpot") else ret tt) ;;;
    logJackpotHistory wonAmount baseAmount "JACKPOT_WIN" userIdentifier (at_log clock) ;;;
    forceNewDailyTarget (force_u1 rnd) (force_u2 rnd) (at_force clock) ;;;
    recordClickAttempt userIdentifier today (at_record clock) ;;;
    ret tt).

Definition missTransactionAt (currentAmount roundedNewJackpotAmount : Q)
    (userIdentifier today : string) (clock : Clock) : Db unit :=
  transaction (
    updated <~ updateJackpot roundedNewJackpotAmount userIdentifier (at_update clock) ;;
    (if negb updated then throw (JsError "Failed to update jackpot on miss") else ret tt) ;;;
    logJackpotHistory currentAmount roundedNewJackpotAmount "INCREMENT" userIdentifier
      (at_log clock) ;;;
    recordClickAttempt userIdentifier today (at_record clock) ;;;
    ret tt).

(** [handleClick] with every clock read of its own: [today] comes from
    the first read, the target functions compute their date from theirs,
    and each written row is stamped with the read of its statement.
    [handleClick env rnd now] above is [handleClickAt env rnd (steady now)]. *)
Definition handleClickAt (env : Store -> Store) (rnd : Random) (clock : Clock)
    (x y : Z) (userIdentifier : string) (s : Store) : ClickResult * Store :=
  if ((x <? 0) || (999 <? x) || (y <? 0) || (999 <? y))%Z
  then (ClickError validation "Invalid coordinates.", s)
  else
    let today := isoDate (at_today clock) in
    if hasAttemptedToday userIdentifier today s
    then (ClickError attempt_limit "You have already made your attempt for today.", s)
    else
      try_catch (
        targetPixel <~ getOrCreateDailyTargetPixel (create_u1 rnd) (create_u2 rnd)
                         (at_target clock) ;;
        let roundedDistance := roundedDistance targetPixel x y in
        currentJackpotState <~ getJackpot ;;
        concurrently env ;;;
        if Qeq_bool roundedDistance 0
        then
          let baseAmount := 100%Q in
          let wonAmount := current_amount currentJackpotState in
          winTransactionAt baseAmount wonAmount userIdentifier today rnd clock ;;;
          ret (ClickWin roundedDistance (tp_x targetPixel) (tp_y targetPixel)
                 wonAmount baseAmount)
        else
          let newJackpotAmount := (current_amount currentJackpotState + 0.001)%Q in
          let roundedNewJackpotAmount := Num.round3 newJackpotAmount in
          missTransactionAt (current_amount currentJackpotState) roundedNewJackpotAmount
            userIdentifier today clock ;;;
          ret (ClickMiss roundedDistance (tp_x targetPixel) (tp_y targetPixel)
                 roundedNewJackpotAmount))
        (fun _ => ClickError server_error "An unexpected server error occurred.") s.

(** ** Runs of the service *)

(** A call of the service, as [server/index.js] makes them: a click from a
    socket, or a tick of the auto-increment timer. *)
Inductive Call :=
| Click (rnd : Random) (now : string) (x y : Z) (userIdentifier : string)
| Tick (now : string).

(** The store a call leaves when nothing else writes meanwhile. *)
Definition run_call (c : Call) (s : Store) : Store :=
  match c with
  | Click rnd now x y userIdentifier => snd (handleClick quiet rnd now x y userIdentifier s)
  | Tick now => snd (performAutoIncrement quiet now s)
  end.

Definition run_calls (cs : list Call) (s : Store) : Store :=
  fold_left (fun acc c => run_call c acc) cs s.

(** The stores the server can be in: a fresh database file initialised by
    [initDb], then any sequence of restarts, clicks and ticks, each click or
    tick possibly overtaken by the calls [cs] of another server process on
    the same file. *)
Inductive reachable : Store -> Prop :=
| reachable_init u1 u2 now :
    reachable (initDb u1 u2 now empty_store)
| reachable_restart s u1 u2 now :
    reachable s -> reachable (initDb u1 u2 now s)
| reachable_click s cs rnd now x y userIdentifier :
    reachable s ->
    reachable (snd (handleClick (run_calls cs) rnd now x y userIdentifier s))
| reachable_tick s cs now :
    reachable s ->
    reachable (snd (performAutoIncrement (run_calls cs) now s)).

(** The store in which the transaction of a click begins: the caller's
    store after the target has been read (and created when the day had
    none) and after the other connections' commits. *)
Definition unit_start (env : Store -> Store) (rnd : Random) (now : string) (s : Store) : Store :=
  env (snd (getOrCreateDailyTargetPixel (create_u1 rnd) (create_u2 rnd) now s)).

(** The amount [getJackpot] reads off a store. *)
Definition snapshot_amount (s : Store) : Q :=
  match jackpot_state s with
  | Some row => js_current_amount row
  | None => 0
  end.

Definition in_range (x y : Z) : Prop := (0 <= x <= 999 /\ 0 <= y <= 999)%Z.

Definition error_type (r : ClickResult) : option ErrorType :=
  match r with
  | ClickError type _ => Some type
  | _ => None
  end.

Definition is_win (r : ClickResult) : bool :=
  match r with
  | ClickWin _ _ _ _ _ => true
  | _ => false
  end.

Definition is_miss (r : ClickResult) : bool :=
  match r with
  | ClickMiss _ _ _ _ => true
  | _ => false
  end.

(** [result.status === 'success']. *)
Definition is_success (r : ClickResult) : bool := is_win r || is_miss r.

(** The bounds [updateJackpot] enforces on the stored amount. *)
Definition amount_within_limits (s : Store) : Prop :=
  exists row, jackpot_state s = Some row /\
              (0 <= js_current_amount row /\ js_current_amount row <= 10000000)%Q.

(** ** Sample data *)

Definition now0 : string := "2026-03-14T09:26:53.589Z".
Definition later0 : string := "2026-03-14T21:05:00.000Z".
Definition rnd0 : Random := mkRandom 0.5 0.25 0.125 0.75.

(** A freshly initialised ledger: jackpot 100, target (500, 250). *)
Definition store0 : Store := initDb 0.5 0.25 now0 empty_store.

Definition row0 : JackpotRow := mkJackpotRow 100 now0 "system" 1.
Definition target0 : TargetPixel := mkTargetPixel 500 250 "2026-03-14".

(** A ledger whose jackpot stands at the ceiling and whose last target is
    of the day before. *)
Definition store_full : Store :=
  mkStore (Some (mkJackpotRow 10000000 "2026-03-13T23:55:00.000Z" "system" 42)) []
          (<["2026-03-13" := mkTargetRow 7 8 1]> ∅) ∅.

(** A call that straddles UTC midnight: [today] and the target are read on
    the 14th, the writes of the transaction happen on the 15th. *)
Definition clock_midnight : Clock :=
  mkClock "2026-03-14T23:59:59.997Z" "2026-03-14T23:59:59.998Z"
          "2026-03-15T00:00:00.001Z" "2026-03-15T00:00:00.002Z"
          "2026-03-15T00:00:00.003Z" "2026-03-15T00:00:00.004Z".

(** Another server process on the same file running one tick. *)
Definition rival_tick : Store -> Store := run_calls [Tick now0].

(** Another server process on the same file serving a click of the same
    caller. *)
Definition rival : Store -> Store :=
  run_calls [Click rnd0 now0 20 20 "203.0.113.7"].

(** ** [server/index.js]: the socket and timer callbacks *)





(** The payloads the server emits. *)
Inductive Payload :=
| ErrorMessage (message : string)
| ClickResultPayload (distance : Q) (targetX targetY : Z) (success : bool)
| JackpotUpdate (amount : Q)
| JackpotWon (amount : Q) (timestamp : string).

(** [socket.emit], to the one client, and [ioInstance.emit], to all. *)
Inductive Emit :=
| SocketEmit (event : string) (payload : Payload)
| IoEmit (event : string) (payload : Payload).





(** The callback of the auto-increment [setInterval]. *)
Definition onAutoIncrement (env : Store -> Store) (now : string) (s : Store)
    : list Emit * Store :=
  let (result, s') := performAutoIncrement env now s in
  match result with
  | TickSuccess newJackpotAmount =>
      ([IoEmit "jackpot_update" (JackpotUpdate newJackpotAmount)], s')
  | TickError _ _ => ([], s')
  end.

Definition is_socket_emit (e : Emit) : bool :=
  match e with
  | SocketEmit _ _ => true
  | IoEmit _ _ => false
  end.

Definition is_io_emit (e : Emit) : bool := negb (is_socket_emit e).

(** ** Predicates on ledgers *)

(** The history entries lead from the amount [start] to the amount
    [final], each entry starting where the one before ended. *)
Fixpoint chained (start : Q) (h : list HistoryRow) (final : Q) : Prop :=
  match h with
  | [] => start = final
  | e :: h' => jh_previous_amount e = start /\ chained (jh_new_amount e) h' final
  end.

(** The stores of a single server process: a fresh file initialised by
    [initDb], then restarts and calls served one after the other. *)
Inductive served : Store -> Prop :=
| served_init u1 u2 now : served (initDb u1 u2 now empty_store)
| served_restart s u1 u2 now : served s -> served (initDb u1 u2 now s)
| served_call s c : served s -> served (run_call c s).

(** A value [Math.random()] can return. *)
Definition unit_interval (u : Q) : Prop := (0 <= u /\ u < 1)%Q.

Definition random_in_unit_interval (rnd : Random) : Prop :=
  unit_interval (create_u1 rnd) /\ unit_interval (create_u2 rnd) /\
  unit_interval (force_u1 rnd) /\ unit_interval (force_u2 rnd).

Definition targets_in_range (s : Store) : Prop :=
  forall d row, daily_target s !! d = Some row ->
                in_range (dt_target_x row) (dt_target_y row).

(** The amount of [k] thousandths. *)
Definition milli (k : Z) : Q := Qred (inject_Z k / 1000).

(** Forced rotations of one day, one per pair of draws. *)
Definition rotations (draws : list (Q * Q)) (now : string) (s : Store) : Store :=
  fold_left (fun acc d => snd (forceNewDailyTarget (fst d) (snd d) now acc)) draws s.

(** Ticks at the given times, served one after the other. *)
Definition ticks (nows : list string) : list Call := map Tick nows.

(** * Properties *)

(** ** Numbers *)

Section NumFacts.

Import Num.

Lemma Math_round_inject_Z (k : Z) : Math_round (inject_Z k) = k.
Proof.
  unfold Math_round, Qfloor, Qplus, inject_Z; simpl.
  symmetry; apply (Z.div_unique _ 10 k 5); lia.
Qed.

Lemma round3_eq (v : Q) : (round3 v == inject_Z (Math_round (v * 1000)) / 1000)%Q.
Proof. unfold round3. apply Qred_correct. Qed.

Lemma Math_round_milli (k : Z) : Math_round (inject_Z k / 1000 * 1000) = k.
Proof.
  transitivity (Math_round (inject_Z k)); [|apply Math_round_inject_Z].
  unfold Math_round. apply Qfloor_comp. field.
Qed.

Lemma round3_idem (v : Q) : round3 (round3 v) = round3 v.
Proof.
  unfold round3 at 1. apply Qred_complete.
  assert (E : Math_round (round3 v * 1000) = Math_round (v * 1000)).
  { transitivity (Math_round (inject_Z (Math_round (v * 1000)) / 1000 * 1000));
      [|apply Math_round_milli].
    unfold Math_round. apply Qfloor_comp. rewrite round3_eq. reflexivity. }
  rewrite E. reflexivity.
Qed.

Lemma round3_nonneg (v : Q) : (0 <= v)%Q -> (0 <= round3 v)%Q.
Proof.
  intros Hv. rewrite round3_eq.
  assert (Hk : (0 <= Math_round (v * 1000))%Z).
  { apply (Qfloor_resp_le 0 (v * 1000 + 0.5)). lra. }
  apply (Qle_shift_div_l 0 (inject_Z (Math_round (v * 1000))) 1000); [reflexivity|].
  rewrite Zle_Qle in Hk. change (inject_Z 0) with 0%Q in Hk. lra.
Qed.

Lemma round3_le_ceiling (v : Q) : (v <= 10000000)%Q -> (round3 v <= 10000000)%Q.
Proof.
  intros Hv. rewrite round3_eq.
  assert (Hk : (Math_round (v * 1000) <= 10000000000)%Z).
  { apply (Qfloor_resp_le (v * 1000 + 0.5) (10000000000 + 0.5)). lra. }
  apply (Qle_shift_div_r (inject_Z (Math_round (v * 1000))) 10000000 1000); [reflexivity|].
  rewrite Zle_Qle in Hk. change (inject_Z 10000000000) with 10000000000%Q in Hk. lra.
Qed.

Lemma ltb_lt (a b : Q) : ltb a b = true <-> (a < b)%Q.
Proof.
  unfold ltb. rewrite negb_true_iff. split.
  - intros H. apply Qnot_le_lt. intros L. apply Qle_bool_iff in L. congruence.
  - intros H. destruct (Qle_bool b a) eqn:E; [|reflexivity].
    apply Qle_bool_iff in E. apply Qle_not_lt in E. contradiction.
Qed.

Lemma ltb_ge (a b : Q) : ltb a b = false <-> (b <= a)%Q.
Proof.
  unfold ltb. rewrite negb_false_iff. apply Qle_bool_iff.
Qed.

(** [round_sqrt_milli n] is the integer nearest to [1000 * sqrt n], halves
    upwards: [k - 1/2 <= 1000 * sqrt n < k + 1/2], squared and cleared of
    fractions. *)
Lemma round_sqrt_milli_spec (n : Z) :
  (0 <= n)%Z ->
  let k := round_sqrt_milli n in
  (0 <= k /\ (0 < k -> (2 * k - 1) ^ 2 <= 4000000 * n) /\ 4000000 * n < (2 * k + 1) ^ 2)%Z.
Proof.
  intros Hn k. subst k. unfold round_sqrt_milli.
  pose proof (Z.sqrt_spec (4000000 * n) ltac:(lia)) as [Hlo Hhi].
  pose proof (Z.sqrt_nonneg (4000000 * n)) as Hr.
  set (r := Z.sqrt (4000000 * n)) in *.
  pose proof (Z.div_mod (r + 1) 2 ltac:(lia)) as Hd.
  pose proof (Z.mod_pos_bound (r + 1) 2 ltac:(lia)) as Hm.
  set (k := ((r + 1) / 2)%Z) in *.
  repeat split; [lia | intros Hk; nia | nia].
Qed.

Lemma random_coordinate_range (u : Q) :
  (0 <= u)%Q -> (u < 1)%Q -> (0 <= random_coordinate u <= 999)%Z.
Proof.
  intros H0 H1. unfold random_coordinate, Math_floor. split.
  - apply (Qfloor_resp_le 0 (u * 1000)). lra.
  - assert (H : (Qfloor (u * 1000) < 1000)%Z); [|lia].
    rewrite Zlt_Qlt. apply Qle_lt_trans with (u * 1000)%Q; [apply Qfloor_le|].
    change (inject_Z 1000) with 1000%Q. lra.
Qed.

Lemma round_sqrt_milli_zero (n : Z) :
  (0 <= n)%Z -> (round_sqrt_milli n = 0 <-> n = 0)%Z.
Proof.
  intros Hn. split.
  - intros E. pose proof (round_sqrt_milli_spec n Hn) as (_ & _ & H).
    rewrite E in H. simpl in H. lia.
  - intros ->. reflexivity.
Qed.

End NumFacts.

(** ** The database functions *)

Section DatabaseFacts.

Arguments Num.round3 : simpl never.

Lemma getJackpot_eq (s : Store) :
  getJackpot s = (inr (mkJackpot (snapshot_amount s)), s).
Proof. reflexivity. Qed.

Lemma hasAttemptedToday_false (identifier attempt_date : string) (s : Store) :
  hasAttemptedToday identifier attempt_date s = false <->
  click_attempts s !! (identifier, attempt_date) = None.
Proof.
  unfold hasAttemptedToday.
  destruct (click_attempts s !! (identifier, attempt_date)); split; congruence.
Qed.

Lemma hasAttemptedToday_true (identifier attempt_date : string) (s : Store) :
  hasAttemptedToday identifier attempt_date s = true <->
  is_Some (click_attempts s !! (identifier, attempt_date)).
Proof.
  unfold hasAttemptedToday.
  destruct (click_attempts s !! (identifier, attempt_date)); split;
    try congruence; eauto.
  intros [? ?]; congruence.
Qed.

(** The target read never fails; it leaves the other three tables alone and
    the day's row in place, creating it at version 1 when it was missing. *)
Lemma getOrCreateDailyTargetPixel_inv (u1 u2 : Q) (now : string) (s : Store) :
  exists trow,
    getOrCreateDailyTargetPixel u1 u2 now s =
      (inr (mkTargetPixel (dt_target_x trow) (dt_target_y trow) (isoDate now)),
       set_daily_target (<[isoDate now := trow]> (daily_target s)) s) /\
    match daily_target s !! isoDate now with
    | Some old => trow = old
    | None => trow = mkTargetRow (Num.random_coordinate u1) (Num.random_coordinate u2) 1
    end.
Proof.
  unfold getOrCreateDailyTargetPixel.
  destruct (daily_target s !! isoDate now) as [old|] eqn:E.
  - exists old. split; [|reflexivity].
    rewrite insert_id by exact E. destruct s; reflexivity.
  - exists (mkTargetRow (Num.random_coordinate u1) (Num.random_coordinate u2) 1).
    split; reflexivity.
Qed.

Lemma unit_start_quiet (rnd : Random) (now : string) (s : Store) :
  exists trow,
    unit_start quiet rnd now s = set_daily_target (<[isoDate now := trow]> (daily_target s)) s /\
    match daily_target s !! isoDate now with
    | Some old => trow = old
    | None => trow = mkTargetRow (Num.random_coordinate (create_u1 rnd))
                                 (Num.random_coordinate (create_u2 rnd)) 1
    end.
Proof.
  destruct (getOrCreateDailyTargetPixel_inv (create_u1 rnd) (create_u2 rnd) now s)
    as (trow & E & H).
  exists trow. split; [|exact H]. unfold unit_start, quiet. rewrite E. reflexivity.
Qed.

(** [updateJackpot] in its three cases: the amount is refused, the row is
    missing, the row is rewritten. *)
Lemma updateJackpot_refused (newAmount : Q) (userId now : string) (s : Store) :
  (newAmount < 0 \/ 10000000 < newAmount)%Q ->
  updateJackpot newAmount userId now s = (inl (JsError "Invalid jackpot amount"), s).
Proof.
  intros H. unfold updateJackpot.
  assert (C : Num.ltb newAmount 0 || Num.ltb 10000000 newAmount = true).
  { apply orb_true_iff. destruct H; [left|right]; apply ltb_lt; assumption. }
  rewrite C. reflexivity.
Qed.

Lemma updateJackpot_accepted (newAmount : Q) (userId now : string) (s : Store) :
  (0 <= newAmount /\ newAmount <= 10000000)%Q ->
  updateJackpot newAmount userId now s =
    match jackpot_state s with
    | Some row =>
        (inr true,
         set_jackpot_state
           (Some (mkJackpotRow (Num.round3 newAmount) now userId (js_version row + 1))) s)
    | None => (inr false, s)
    end.
Proof.
  intros [H0 H1]. unfold updateJackpot.
  assert (C : Num.ltb newAmount 0 || Num.ltb 10000000 newAmount = false).
  { apply orb_false_iff. split; apply ltb_ge; assumption. }
  rewrite C. reflexivity.
Qed.

Lemma recordClickAttempt_taken (identifier attempt_date now : string) (s : Store) :
  hasAttemptedToday identifier attempt_date s = true ->
  recordClickAttempt identifier attempt_date now s =
    (inl (SqliteConstraintUnique "click_attempts"), s).
Proof.
  intros H. apply hasAttemptedToday_true in H as [ts E].
  unfold recordClickAttempt. rewrite E. reflexivity.
Qed.

Lemma recordClickAttempt_free (identifier attempt_date now : string) (s : Store) :
  hasAttemptedToday identifier attempt_date s = false ->
  recordClickAttempt identifier attempt_date now s =
    (inr true,
     set_click_attempts (<[(identifier, attempt_date) := now]> (click_attempts s)) s).
Proof.
  intros H. apply hasAttemptedToday_false in H.
  unfold recordClickAttempt. rewrite H. reflexivity.
Qed.

Lemma transaction_rollback {A} (fn : Db A) (s s' : Store) (e : Failure) :
  transaction fn s = (inl e, s') -> s' = s.
Proof.
  unfold transaction. destruct (fn s) as [[e'|a] t]; intros H; congruence.
Qed.

End DatabaseFacts.

(** ** The mutation units *)

Section MutationUnits.

Arguments Num.round3 : simpl never.

Lemma round3_base : Num.round3 100 = 100%Q.
Proof. reflexivity. Qed.

(** The win transaction, case by case: no jackpot row, attempt key taken,
    or all four writes committed together. *)
Lemma winTransaction_cases (wonAmount : Q) (userIdentifier today : string)
    (rnd : Random) (now : string) (t : Store) :
  winTransaction 100 wonAmount userIdentifier today rnd now t =
    match jackpot_state t with
    | None => (inl (JsError "Failed to reset jackpot"), t)
    | Some row =>
        if hasAttemptedToday userIdentifier today t
        then (inl (SqliteConstraintUnique "click_attempts"), t)
        else
          (inr tt,
           mkStore
             (Some (mkJackpotRow 100 now userIdentifier (js_version row + 1)))
             (jackpot_history t ++
                [mkHistoryRow now wonAmount 100 "JACKPOT_WIN" userIdentifier])
             (<[isoDate now :=
                  match daily_target t !! isoDate now with
                  | Some old =>
                      mkTargetRow (Num.random_coordinate (force_u1 rnd))
                        (Num.random_coordinate (force_u2 rnd)) (dt_version old + 1)
                  | None =>
                      mkTargetRow (Num.random_coordinate (force_u1 rnd))
                        (Num.random_coordinate (force_u2 rnd)) 1
                  end]> (daily_target t))
             (<[(userIdentifier, today) := now]> (click_attempts t)))
    end.
Proof.
  unfold winTransaction, transaction, bind, resetJackpot.
  rewrite updateJackpot_accepted by (split; discriminate).
  rewrite round3_base.
  destruct (jackpot_state t) as [row|]; [|reflexivity].
  cbn [negb]. unfold ret at 1.
  unfold logJackpotHistory, forceNewDailyTarget, recordClickAttempt, hasAttemptedToday.
  cbn [click_attempts set_daily_target set_jackpot_history set_jackpot_state
       jackpot_state jackpot_history daily_target].
  destruct (click_attempts t !! (userIdentifier, today)); reflexivity.
Qed.

(** The miss transaction, case by case: amount refused, no jackpot row,
    attempt key taken, or all three writes committed together. *)
Lemma missTransaction_cases (currentAmount rounded : Q) (userIdentifier today : string)
    (now : string) (t : Store) :
  missTransaction currentAmount rounded userIdentifier today now t =
    if Num.ltb rounded 0 || Num.ltb 10000000 rounded
    then (inl (JsError "Invalid jackpot amount"), t)
    else
      match jackpot_state t with
      | None => (inl (JsError "Failed to update jackpot on miss"), t)
      | Some row =>
          if hasAttemptedToday userIdentifier today t
          then (inl (SqliteConstraintUnique "click_attempts"), t)
          else
            (inr tt,
             mkStore
               (Some (mkJackpotRow (Num.round3 rounded) now userIdentifier (js_version row + 1)))
               (jackpot_history t ++
                  [mkHistoryRow now currentAmount rounded "INCREMENT" userIdentifier])
               (daily_target t)
               (<[(userIdentifier, today) := now]> (click_attempts t)))
      end.
Proof.
  unfold missTransaction, transaction, bind, updateJackpot.
  destruct (Num.ltb rounded 0 || Num.ltb 10000000 rounded); [reflexivity|].
  destruct (jackpot_state t) as [row|]; [|reflexivity].
  cbn [negb]. unfold ret at 1.
  unfold logJackpotHistory, recordClickAttempt, hasAttemptedToday.
  cbn [click_attempts set_daily_target set_jackpot_history set_jackpot_state
       jackpot_state jackpot_history daily_target].
  destruct (click_attempts t !! (userIdentifier, today)); reflexivity.
Qed.

(** A click that passes validation and the pre-check comes down to the
    target read, the snapshot, and one of the two transactions run in the
    store [unit_start] leaves. *)
Lemma handleClick_resolved (env : Store -> Store) (rnd : Random) (now : string)
    (x y : Z) (userIdentifier : string) (s : Store) (trow : TargetRow) :
  in_range x y ->
  hasAttemptedToday userIdentifier (isoDate now) s = false ->
  getOrCreateDailyTargetPixel (create_u1 rnd) (create_u2 rnd) now s =
    (inr (mkTargetPixel (dt_target_x trow) (dt_target_y trow) (isoDate now)),
     set_daily_target (<[isoDate now := trow]> (daily_target s)) s) ->
  let targetPixel := mkTargetPixel (dt_target_x trow) (dt_target_y trow) (isoDate now) in
  let t := unit_start env rnd now s in
  let failed := ClickError server_error "An unexpected server error occurred." in
  handleClick env rnd now x y userIdentifier s =
    if Qeq_bool (roundedDistance targetPixel x y) 0
    then
      match winTransaction 100 (snapshot_amount s) userIdentifier (isoDate now) rnd now t with
      | (inr _, s') =>
          (ClickWin (roundedDistance targetPixel x y) (dt_target_x trow) (dt_target_y trow)
             (snapshot_amount s) 100, s')
      | (inl _, s') => (failed, s')
      end
    else
      match missTransaction (snapshot_amount s) (Num.round3 (snapshot_amount s + 0.001))
              userIdentifier (isoDate now) now t with
      | (inr _, s') =>
          (ClickMiss (roundedDistance targetPixel x y) (dt_target_x trow) (dt_target_y trow)
             (Num.round3 (snapshot_amount s + 0.001)), s')
      | (inl _, s') => (failed, s')
      end.
Proof.
  intros [[Hx0 Hx1] [Hy0 Hy1]] Hgate Htarget targetPixel t failed.
  unfold handleClick.
  replace ((x <? 0) || (999 <? x) || (y <? 0) || (999 <? y))%Z with false
    by (symmetry; repeat (apply orb_false_iff; split); apply Z.ltb_ge; lia).
  rewrite Hgate.
  unfold try_catch, bind at 1. rewrite Htarget.
  unfold bind at 1. rewrite getJackpot_eq.
  unfold bind at 1, concurrently.
  subst t. unfold unit_start. rewrite Htarget. cbn [snd current_amount tp_x tp_y].
  fold targetPixel.
  destruct (Qeq_bool (roundedDistance targetPixel x y) 0).
  - unfold bind, ret.
    destruct (winTransaction _ _ _ _ _ _ _) as [[e|[]] s']; reflexivity.
  - unfold bind, ret.
    destruct (missTransaction _ _ _ _ _ _) as [[e|[]] s']; reflexivity.
Qed.

End MutationUnits.

(** ** Distance to the target *)

Section DistanceFacts.

Lemma roundedDistance_milli (targetPixel : TargetPixel) (x y : Z) :
  (roundedDistance targetPixel x y ==
   inject_Z (Num.round_sqrt_milli ((tp_x targetPixel - x) ^ 2 + (tp_y targetPixel - y) ^ 2))
   / 1000)%Q.
Proof. unfold roundedDistance. apply Qred_correct. Qed.

Lemma roundedDistance_nonneg (targetPixel : TargetPixel) (x y : Z) :
  (0 <= roundedDistance targetPixel x y)%Q.
Proof.
  rewrite roundedDistance_milli.
  set (n := ((tp_x targetPixel - x) ^ 2 + (tp_y targetPixel - y) ^ 2)%Z).
  destruct (round_sqrt_milli_spec n ltac:(subst n; nia)) as (Hk & _).
  apply (Qle_shift_div_l 0 _ 1000); [reflexivity|].
  rewrite Zle_Qle in Hk. change (inject_Z 0) with 0%Q in Hk. lra.
Qed.

(** The rounded distance is 0 exactly on the target pixel. *)
Lemma roundedDistance_zero (targetPixel : TargetPixel) (x y : Z) :
  (roundedDistance targetPixel x y == 0)%Q <-> tp_x targetPixel = x /\ tp_y targetPixel = y.
Proof.
  rewrite roundedDistance_milli.
  set (n := ((tp_x targetPixel - x) ^ 2 + (tp_y targetPixel - y) ^ 2)%Z).
  assert (Hn : (0 <= n)%Z) by (subst n; nia).
  assert (Hz : (n = 0 <-> tp_x targetPixel = x /\ tp_y targetPixel = y)%Z) by (subst n; nia).
  rewrite <- Hz, <- (round_sqrt_milli_zero n Hn).
  generalize (Num.round_sqrt_milli n). intros k. split.
  - intros E. apply (Qmult_inj_r _ _ 1000) in E; [|discriminate].
    assert (E' : (inject_Z k == inject_Z 0)%Q) by (rewrite <- E; field).
    unfold Qeq in E'. cbn [inject_Z Qnum Qden] in E'. lia.
  - intros ->. reflexivity.
Qed.

(** The [=== 0] test of [handleClick] and equality with 0 agree. *)
Lemma roundedDistance_test (targetPixel : TargetPixel) (x y : Z) :
  Qeq_bool (roundedDistance targetPixel x y) 0 = true <->
  roundedDistance targetPixel x y = 0%Q.
Proof.
  rewrite Qeq_bool_iff. split.
  - intros E. unfold roundedDistance in *.
    rewrite Qred_correct in E. apply Qred_complete in E. exact E.
  - intros ->. reflexivity.
Qed.

Lemma roundedDistance_positive (targetPixel : TargetPixel) (x y : Z) :
  (0 < roundedDistance targetPixel x y)%Q <->
  Qeq_bool (roundedDistance targetPixel x y) 0 = false.
Proof.
  pose proof (roundedDistance_nonneg targetPixel x y) as H0.
  split.
  - intros H. destruct (Qeq_bool _ 0) eqn:E; [|reflexivity].
    apply Qeq_bool_iff in E. rewrite E in H. discriminate.
  - intros E. apply Qle_lt_or_eq in H0 as [H0|H0]; [exact H0|].
    symmetry in H0. apply Qeq_bool_iff in H0. congruence.
Qed.

End DistanceFacts.

(** ** Rejected clicks *)

Section Rejections.

Lemma in_range_test (x y : Z) :
  ((x <? 0) || (999 <? x) || (y <? 0) || (999 <? y))%Z = false <-> in_range x y.
Proof.
  unfold in_range. rewrite !orb_false_iff, !Z.ltb_ge. lia.
Qed.

(** A click answered with [status: 'success'] has passed both guards and
    has left its attempt row behind. *)
Lemma handleClick_success_recorded (env : Store -> Store) (rnd : Random) (now : string)
    (x y : Z) (userIdentifier : string) (s s' : Store) (r : ClickResult) :
  handleClick env rnd now x y userIdentifier s = (r, s') ->
  is_success r = true ->
  in_range x y /\
  hasAttemptedToday userIdentifier (isoDate now) s = false /\
  hasAttemptedToday userIdentifier (isoDate now) (unit_start env rnd now s) = false /\
  click_attempts s' !! (userIdentifier, isoDate now) = Some now.
Proof.
  intros H Hs.
  destruct (((x <? 0) || (999 <? x) || (y <? 0) || (999 <? y))%Z) eqn:Hr.
  { unfold handleClick in H. rewrite Hr in H. inversion H; subst. discriminate. }
  apply in_range_test in Hr.
  destruct (hasAttemptedToday userIdentifier (isoDate now) s) eqn:Hg.
  { unfold handleClick in H. apply in_range_test in Hr. rewrite Hr, Hg in H.
    inversion H; subst. discriminate. }
  destruct (getOrCreateDailyTargetPixel_inv (create_u1 rnd) (create_u2 rnd) now s)
    as (trow & Et & _).
  rewrite (handleClick_resolved env rnd now x y userIdentifier s trow Hr Hg Et) in H.
  rewrite winTransaction_cases, missTransaction_cases in H.
  set (t := unit_start env rnd now s) in *.
  destruct (Qeq_bool _ 0);
    [|destruct (Num.ltb _ 0 || Num.ltb 10000000 _)];
    try (inversion H; subst; discriminate);
    (destruct (jackpot_state t); [|inversion H; subst; discriminate]);
    (destruct (hasAttemptedToday userIdentifier (isoDate now) t);
       [inversion H; subst; discriminate|]);
    inversion H; subst; cbn [click_attempts];
    (split; [exact Hr|]); (split; [reflexivity|]); (split; [reflexivity|]);
    apply lookup_insert_eq.
Qed.

(** An error answer leaves the store the call started from, or the store
    in which its transaction began. *)
Lemma handleClick_error_store (env : Store -> Store) (rnd : Random) (now : string)
    (x y : Z) (userIdentifier : string) (s s' : Store) (type : ErrorType) (message : string) :
  handleClick env rnd now x y userIdentifier s = (ClickError type message, s') ->
  (type <> server_error /\ s' = s) \/
  (type = server_error /\ s' = unit_start env rnd now s).
Proof.
  intros H.
  destruct (((x <? 0) || (999 <? x) || (y <? 0) || (999 <? y))%Z) eqn:Hr.
  { unfold handleClick in H. rewrite Hr in H. inversion H; subst. left. split; [discriminate|reflexivity]. }
  destruct (hasAttemptedToday userIdentifier (isoDate now) s) eqn:Hg.
  { unfold handleClick in H. rewrite Hr, Hg in H.
    inversion H; subst. left. split; [discriminate|reflexivity]. }
  apply in_range_test in Hr.
  destruct (getOrCreateDailyTargetPixel_inv (create_u1 rnd) (create_u2 rnd) now s)
    as (trow & Et & _).
  rewrite (handleClick_resolved env rnd now x y userIdentifier s trow Hr Hg Et) in H.
  set (t := unit_start env rnd now s) in *.
  right.
  destruct (Qeq_bool _ 0).
  - destruct (winTransaction _ _ _ _ _ _ t) as [[e|u] t'] eqn:Ew; inversion H; subst.
    split; [reflexivity|]. symmetry. apply transaction_rollback in Ew. congruence.
  - destruct (missTransaction _ _ _ _ _ t) as [[e|u] t'] eqn:Em; inversion H; subst.
    split; [reflexivity|]. symmetry. apply transaction_rollback in Em. congruence.
Qed.

End Rejections.

(** ** The attempt gate and failed clicks *)

Section Gate.

(** C10: without the singleton row in [jackpot_state], [getJackpot] does not
    fail; it returns the amount 0 and leaves the store as it is. *)
Theorem getJackpot_missing_row (s : Store) :
  jackpot_state s = None ->
  getJackpot s = (inr (mkJackpot 0), s).
Proof.
  intros H. rewrite getJackpot_eq. unfold snapshot_amount. rewrite H. reflexivity.
Qed.

Lemma getJackpot_missing_row_witness :
  jackpot_state empty_store = None /\
  getJackpot empty_store = (inr (mkJackpot 0), empty_store).
Proof.
  split; [reflexivity | apply (getJackpot_missing_row empty_store); reflexivity].
Defined.

(** C8: for integers [x], [y] with one of them outside 0..999, [handleClick]
    answers with the validation error and returns the store unchanged,
    whoever calls, whatever the store and whatever others write. *)
Theorem handleClick_invalid_coordinates (env : Store -> Store) (rnd : Random)
    (now : string) (x y : Z) (userIdentifier : string) (s : Store) :
  (x < 0 \/ 999 < x \/ y < 0 \/ 999 < y)%Z ->
  handleClick env rnd now x y userIdentifier s =
    (ClickError validation "Invalid coordinates.", s).
Proof.
  intros H. unfold handleClick.
  replace ((x <? 0) || (999 <? x) || (y <? 0) || (999 <? y))%Z with true; [reflexivity|].
  symmetry. rewrite !orb_true_iff, !Z.ltb_lt. tauto.
Qed.

Lemma handleClick_invalid_coordinates_witness :
  (1000 < 0 \/ 999 < 1000 \/ -1 < 0 \/ 999 < -1)%Z /\
  handleClick rival rnd0 now0 1000 (-1) "198.51.100.23" store0 =
    (ClickError validation "Invalid coordinates.", store0).
Proof.
  split; [lia|].
  apply (handleClick_invalid_coordinates rival rnd0 now0 1000 (-1) "198.51.100.23" store0).
  lia.
Defined.

(** C1, as the code behaves: when the caller's attempt key is free at the
    pre-check and taken when the transaction begins, the INSERT of
    [recordClickAttempt] fails on UNIQUE(identifier, attempt_date), the
    transaction is rolled back, and [handleClick] answers with the generic
    [server_error], the answer it gives to every failure inside its [try]. *)
Theorem handleClick_lost_race (env : Store -> Store) (rnd : Random) (now : string)
    (x y : Z) (userIdentifier : string) (s : Store) :
  in_range x y ->
  hasAttemptedToday userIdentifier (isoDate now) s = false ->
  hasAttemptedToday userIdentifier (isoDate now) (unit_start env rnd now s) = true ->
  recordClickAttempt userIdentifier (isoDate now) now (unit_start env rnd now s) =
    (inl (SqliteConstraintUnique "click_attempts"), unit_start env rnd now s) /\
  handleClick env rnd now x y userIdentifier s =
    (ClickError server_error "An unexpected server error occurred.",
     unit_start env rnd now s).
Proof.
  intros Hr Hg Ht. split; [apply recordClickAttempt_taken; exact Ht|].
  destruct (getOrCreateDailyTargetPixel_inv (create_u1 rnd) (create_u2 rnd) now s)
    as (trow & Et & _).
  rewrite (handleClick_resolved env rnd now x y userIdentifier s trow Hr Hg Et).
  rewrite winTransaction_cases, missTransaction_cases, Ht.
  destruct (Qeq_bool _ 0);
    [|destruct (Num.ltb _ 0 || Num.ltb 10000000 _); [reflexivity|]];
    destruct (jackpot_state (unit_start env rnd now s)); reflexivity.
Qed.

Lemma handleClick_lost_race_witness :
  in_range 10 10 /\
  hasAttemptedToday "203.0.113.7" (isoDate now0) store0 = false /\
  hasAttemptedToday "203.0.113.7" (isoDate now0) (unit_start rival rnd0 now0 store0) = true /\
  handleClick rival rnd0 now0 10 10 "203.0.113.7" store0 =
    (ClickError server_error "An unexpected server error occurred.",
     unit_start rival rnd0 now0 store0).
Proof.
  assert (Hr : in_range 10 10) by (unfold in_range; lia).
  assert (Hg : hasAttemptedToday "203.0.113.7" (isoDate now0) store0 = false)
    by (vm_compute; reflexivity).
  assert (Ht : hasAttemptedToday "203.0.113.7" (isoDate now0)
                 (unit_start rival rnd0 now0 store0) = true)
    by (vm_compute; reflexivity).
  repeat (split; [assumption|]).
  exact (proj2 (handleClick_lost_race rival rnd0 now0 10 10 "203.0.113.7" store0 Hr Hg Ht)).
Defined.

(** C1 as stated fails: two server processes on one database file serve
    two clicks of the caller 203.0.113.7 at once.  The pre-check of the
    first finds no attempt, the second commits its miss, the miss
    transaction of the first then fails on the uniqueness constraint, and
    the answer is [server_error], not [attempt_limit]. *)
Lemma lost_race_is_server_error :
  let r := handleClick rival rnd0 now0 10 10 "203.0.113.7" store0 in
  hasAttemptedToday "203.0.113.7" (isoDate now0) store0 = false /\
  fst (missTransaction 100 100.001 "203.0.113.7" (isoDate now0) now0
         (unit_start rival rnd0 now0 store0)) =
    inl (SqliteConstraintUnique "click_attempts") /\
  error_type (fst r) = Some server_error /\
  error_type (fst r) <> Some attempt_limit.
Proof.
  vm_compute. repeat split; try reflexivity. discriminate.
Qed.




End Gate.

(** ** Failures inside the mutation unit *)

Section Rollback.

(** C3, as the code behaves: an error answer of [handleClick] leaves a
    definite store.  After the validation or the attempt-limit error it is
    the caller's store.  After [server_error], the answer to any failure
    inside the transaction (the uniqueness violation included), it is
    exactly the store in which the transaction began: no write of the
    transaction is kept.  That store is the caller's store after
    [getOrCreateDailyTargetPixel] and after the other writers; so with no
    other writer the jackpot row, the history, the attempts and the targets
    of other dates are those of before the call, and the day's target is as
    before when the day had one, while on a day without target a
    [server_error] leaves behind the row created at version 1. *)
Theorem handleClick_error_rollback :
  (forall env rnd now x y userIdentifier s type message s',
      handleClick env rnd now x y userIdentifier s = (ClickError type message, s') ->
      (type <> server_error /\ s' = s) \/
      (type = server_error /\ s' = unit_start env rnd now s)) /\
  (forall env rnd now s,
      unit_start env rnd now s =
        env (set_daily_target
               (<[isoDate now :=
                    match daily_target s !! isoDate now with
                    | Some old => old
                    | None => mkTargetRow (Num.random_coordinate (create_u1 rnd))
                                (Num.random_coordinate (create_u2 rnd)) 1
                    end]> (daily_target s)) s)) /\
  (forall rnd now x y userIdentifier s type message s',
      handleClick quiet rnd now x y userIdentifier s = (ClickError type message, s') ->
      jackpot_state s' = jackpot_state s /\
      jackpot_history s' = jackpot_history s /\
      click_attempts s' = click_attempts s /\
      (forall d, d <> isoDate now -> daily_target s' !! d = daily_target s !! d) /\
      (type <> server_error -> daily_target s' = daily_target s) /\
      (type = server_error ->
       match daily_target s !! isoDate now with
       | Some old => daily_target s' = daily_target s
       | None =>
           daily_target s' !! isoDate now =
             Some (mkTargetRow (Num.random_coordinate (create_u1 rnd))
                     (Num.random_coordinate (create_u2 rnd)) 1) /\
           daily_target s' =
             <[isoDate now := mkTargetRow (Num.random_coordinate (create_u1 rnd))
                                (Num.random_coordinate (create_u2 rnd)) 1]> (daily_target s)
       end)).
Proof.
  assert (Hstart : forall env rnd now s,
             unit_start env rnd now s =
               env (set_daily_target
                      (<[isoDate now :=
                           match daily_target s !! isoDate now with
                           | Some old => old
                           | None => mkTargetRow (Num.random_coordinate (create_u1 rnd))
                                       (Num.random_coordinate (create_u2 rnd)) 1
                           end]> (daily_target s)) s)).
  { intros env rnd now s.
    destruct (getOrCreateDailyTargetPixel_inv (create_u1 rnd) (create_u2 rnd) now s)
      as (trow & Et & Ht).
    unfold unit_start. rewrite Et. cbn [snd].
    destruct (daily_target s !! isoDate now); subst trow; reflexivity. }
  split; [|split].
  - intros env rnd now x y userIdentifier s type message s' H.
    exact (handleClick_error_store _ _ _ _ _ _ _ _ _ _ H).
  - exact Hstart.
  - intros rnd now x y userIdentifier s type message s' H.
    destruct (handleClick_error_store _ _ _ _ _ _ _ _ _ _ H) as [[Hty E]|[Hty E]].
    + subst s'. repeat (split; [reflexivity|]). intros Hs. contradiction.
    + rewrite Hstart in E. unfold quiet in E. subst s'.
      cbn [set_daily_target jackpot_state jackpot_history click_attempts daily_target].
      repeat (split; [reflexivity|]).
      split; [intros d Hd; apply lookup_insert_ne; congruence|].
      split; [intros Hne; contradiction|]. intros _.
      destruct (daily_target s !! isoDate now) as [old|] eqn:El.
      * apply insert_id. exact El.
      * split; [apply lookup_insert_eq | reflexivity].
Qed.

Lemma handleClick_error_rollback_witness :
  let raced := handleClick rival rnd0 now0 10 10 "203.0.113.7" store0 in
  let failed := handleClick quiet rnd0 now0 10 10 "198.51.100.23" store_full in
  raced = (ClickError server_error "An unexpected server error occurred.", snd raced) /\
  snd raced = unit_start rival rnd0 now0 store0 /\
  failed = (ClickError server_error "An unexpected server error occurred.", snd failed) /\
  daily_target store_full !! isoDate now0 = None /\
  daily_target (snd failed) !! isoDate now0 = Some (mkTargetRow 500 250 1) /\
  jackpot_state (snd failed) = jackpot_state store_full.
Proof.
  intros raced failed.
  assert (E1 : raced = (ClickError server_error "An unexpected server error occurred.",
                        snd raced)) by (vm_compute; reflexivity).
  assert (E2 : failed = (ClickError server_error "An unexpected server error occurred.",
                         snd failed)) by (vm_compute; reflexivity).
  assert (El : daily_target store_full !! isoDate now0 = None) by (vm_compute; reflexivity).
  destruct handleClick_error_rollback as (Hany & _ & Hquiet).
  split; [exact E1|]. split.
  - destruct (Hany rival rnd0 now0 10 10 "203.0.113.7" store0 server_error
                "An unexpected server error occurred." (snd raced) E1) as [[Hne _]|[_ E]].
    + contradiction.
    + exact E.
  - split; [exact E2|]. split; [exact El|].
    destruct (Hquiet rnd0 now0 10 10 "198.51.100.23" store_full server_error
                "An unexpected server error occurred." (snd failed) E2)
      as (Hj & _ & _ & _ & _ & Hrow).
    specialize (Hrow eq_refl). rewrite El in Hrow. destruct Hrow as [Hrow _].
    split; [|exact Hj]. rewrite Hrow. vm_compute. reflexivity.
Defined.

(** C3 as stated fails on [daily_target]: on 2026-03-14 the ledger
    [store_full] has no target yet and its jackpot is at the ceiling.  The
    click at (10, 10) creates the day's target (500, 250), misses it, has
    its update refused inside the transaction and is answered with
    [server_error]; the created target row stays. *)
Lemma failed_click_keeps_created_target :
  let r := handleClick quiet rnd0 now0 10 10 "198.51.100.23" store_full in
  error_type (fst r) = Some server_error /\
  daily_target store_full !! "2026-03-14" = None /\
  daily_target (snd r) !! "2026-03-14" = Some (mkTargetRow 500 250 1) /\
  daily_target (snd r) <> daily_target store_full.
Proof.
  intros r.
  assert (H1 : daily_target store_full !! "2026-03-14" = None) by (vm_compute; reflexivity).
  assert (H2 : daily_target (snd r) !! "2026-03-14" = Some (mkTargetRow 500 250 1))
    by (vm_compute; reflexivity).
  split; [vm_compute; reflexivity|]. split; [exact H1|]. split; [exact H2|].
  intros E. rewrite E, H1 in H2. discriminate.
Qed.

(** C9: a miss whose new amount, the snapshot plus 0.001 rounded to three
    decimals, is above 10,000,000 makes [updateJackpot] throw; the
    transaction is rolled back, [handleClick] answers with [server_error], and
    the caller has no attempt row for the day: jackpot, history and attempts
    are as before the call. *)
Theorem miss_over_ceiling (rnd : Random) (now : string) (x y : Z)
    (userIdentifier : string) (s s1 : Store) (targetPixel : TargetPixel) :
  in_range x y ->
  hasAttemptedToday userIdentifier (isoDate now) s = false ->
  getOrCreateDailyTargetPixel (create_u1 rnd) (create_u2 rnd) now s = (inr targetPixel, s1) ->
  (0 < roundedDistance targetPixel x y)%Q ->
  (10000000 < Num.round3 (snapshot_amount s + 0.001))%Q ->
  updateJackpot (Num.round3 (snapshot_amount s + 0.001)) userIdentifier now s1 =
    (inl (JsError "Invalid jackpot amount"), s1) /\
  handleClick quiet rnd now x y userIdentifier s =
    (ClickError server_error "An unexpected server error occurred.", s1) /\
  hasAttemptedToday userIdentifier (isoDate now) s1 = false /\
  click_attempts s1 = click_attempts s /\
  jackpot_state s1 = jackpot_state s /\
  jackpot_history s1 = jackpot_history s.
Proof.
  intros Hr Hg Ht Hd Hc.
  destruct (getOrCreateDailyTargetPixel_inv (create_u1 rnd) (create_u2 rnd) now s)
    as (trow & Et & _).
  assert (Es : unit_start quiet rnd now s = s1)
    by (unfold unit_start, quiet; rewrite Ht; reflexivity).
  rewrite Et in Ht. inversion Ht as [[Etp Es1]]. clear Ht.
  split; [apply updateJackpot_refused; right; exact Hc|].
  split.
  - rewrite (handleClick_resolved quiet rnd now x y userIdentifier s trow Hr Hg Et).
    rewrite Etp. apply roundedDistance_positive in Hd. rewrite Hd.
    rewrite missTransaction_cases, Es.
    apply ltb_lt in Hc. rewrite Hc, orb_true_r. rewrite <- Es1. reflexivity.
  - repeat split. exact Hg.
Qed.

Lemma miss_over_ceiling_witness :
  let s1 := snd (getOrCreateDailyTargetPixel 0.5 0.25 now0 store_full) in
  in_range 10 10 /\
  (10000000 < Num.round3 (snapshot_amount store_full + 0.001))%Q /\
  handleClick quiet rnd0 now0 10 10 "198.51.100.23" store_full =
    (ClickError server_error "An unexpected server error occurred.", s1) /\
  hasAttemptedToday "198.51.100.23" (isoDate now0) s1 = false.
Proof.
  intros s1.
  assert (Hr : in_range 10 10) by (unfold in_range; lia).
  assert (Hc : (10000000 < Num.round3 (snapshot_amount store_full + 0.001))%Q)
    by (vm_compute; reflexivity).
  split; [exact Hr|]. split; [exact Hc|].
  destruct (miss_over_ceiling rnd0 now0 10 10 "198.51.100.23" store_full s1
              (mkTargetPixel 500 250 "2026-03-14") Hr)
    as (_ & H & Ha & _).
  - vm_compute; reflexivity.
  - vm_compute; reflexivity.
  - vm_compute; reflexivity.
  - exact Hc.
  - split; [exact H | exact Ha].
Defined.

End Rollback.

(** ** A first day *)

Section OutcomeWitnesses.

(** A first day: A misses at (10, 10), A is refused a second try, B hits
    the target (500, 250) and wins what A's miss has left. *)
Example first_day :
  let a := handleClick quiet rnd0 now0 10 10 "A" store0 in
  let a' := handleClick quiet rnd0 later0 11 11 "A" (snd a) in
  let b := handleClick quiet rnd0 later0 500 250 "B" (snd a') in
  fst a = ClickMiss 545.619 500 250 100.001 /\
  fst a' = ClickError attempt_limit "You have already made your attempt for today." /\
  snapshot_amount (snd a') = 100.001%Q /\
  fst b = ClickWin 0 500 250 100.001 100 /\
  snapshot_amount (snd b) = 100%Q /\
  daily_target (snd b) !! "2026-03-14" = Some (mkTargetRow 125 750 2) /\
  length (jackpot_history (snd b)) = 2%nat.
Proof. vm_compute. repeat split; reflexivity. Qed.

End OutcomeWitnesses.

(** ** The periodic increment *)

Section Tick.

Arguments Num.round3 : simpl never.

Lemma performAutoIncrement_cases (env : Store -> Store) (now : string) (s : Store) :
  let roundedAmount := Num.round3 (snapshot_amount s + 0.01) in
  let t := env s in
  let failed := TickError server_error "Auto increment failed." in
  performAutoIncrement env now s =
    if Num.ltb roundedAmount 0 || Num.ltb 10000000 roundedAmount
    then (failed, t)
    else
      match jackpot_state t with
      | None => (failed, t)
      | Some row =>
          (TickSuccess roundedAmount,
           mkStore
             (Some (mkJackpotRow (Num.round3 roundedAmount) now "system" (js_version row + 1)))
             (jackpot_history t ++
                [mkHistoryRow now (snapshot_amount s) roundedAmount "AUTO_INCREMENT" "system"])
             (daily_target t)
             (click_attempts t))
      end.
Proof.
  intros roundedAmount t failed.
  unfold performAutoIncrement, try_catch, bind at 1. rewrite getJackpot_eq.
  cbn [current_amount]. fold roundedAmount.
  unfold bind at 1, concurrently. fold t.
  unfold bind at 1, transaction, bind at 1, updateJackpot.
  destruct (Num.ltb roundedAmount 0 || Num.ltb 10000000 roundedAmount); [reflexivity|].
  destruct (jackpot_state t) as [row|]; reflexivity.
Qed.

End Tick.

(** ** The jackpot row over the life of the ledger *)

Section JackpotInvariant.

Arguments Num.round3 : simpl never.

Lemma round3_within_limits (v : Q) :
  Num.ltb v 0 || Num.ltb 10000000 v = false ->
  (0 <= Num.round3 v /\ Num.round3 v <= 10000000)%Q.
Proof.
  intros H. apply orb_false_iff in H as [H0 H1]. apply ltb_ge in H0, H1.
  split; [apply round3_nonneg | apply round3_le_ceiling]; assumption.
Qed.

(** What a successful click has done to the jackpot row. *)
Lemma handleClick_success_jackpot (env : Store -> Store) (rnd : Random) (now : string)
    (x y : Z) (userIdentifier : string) (s s' : Store) (r : ClickResult) :
  handleClick env rnd now x y userIdentifier s = (r, s') ->
  is_success r = true ->
  exists row amount,
    jackpot_state (unit_start env rnd now s) = Some row /\
    jackpot_state s' = Some (mkJackpotRow amount now userIdentifier (js_version row + 1)) /\
    (0 <= amount /\ amount <= 10000000)%Q.
Proof.
  intros H Hs.
  destruct (handleClick_success_recorded _ _ _ _ _ _ _ _ _ H Hs) as (Hr & Hg & _ & _).
  destruct (getOrCreateDailyTargetPixel_inv (create_u1 rnd) (create_u2 rnd) now s)
    as (trow & Et & _).
  rewrite (handleClick_resolved env rnd now x y userIdentifier s trow Hr Hg Et) in H.
  rewrite winTransaction_cases, missTransaction_cases in H.
  set (t := unit_start env rnd now s) in *.
  destruct (Qeq_bool _ 0).
  - destruct (jackpot_state t) as [row|]; [|inversion H; subst; discriminate].
    destruct (hasAttemptedToday userIdentifier (isoDate now) t);
      [inversion H; subst; discriminate|].
    inversion H; subst. exists row, 100%Q. cbn [jackpot_state].
    repeat split; discriminate.
  - destruct (Num.ltb _ 0 || Num.ltb 10000000 _) eqn:Hc;
      [inversion H; subst; discriminate|].
    destruct (jackpot_state t) as [row|]; [|inversion H; subst; discriminate].
    destruct (hasAttemptedToday userIdentifier (isoDate now) t);
      [inversion H; subst; discriminate|].
    inversion H; subst. eexists row, _. cbn [jackpot_state].
    split; [reflexivity|]. split; [reflexivity|].
    apply round3_within_limits. exact Hc.
Qed.

(** What a successful tick has done to the jackpot row; a failed tick
    leaves the store it found. *)
Lemma performAutoIncrement_jackpot (env : Store -> Store) (now : string) (s s' : Store)
    (r : TickResult) :
  performAutoIncrement env now s = (r, s') ->
  match r with
  | TickSuccess _ =>
      exists row amount,
        jackpot_state (env s) = Some row /\
        jackpot_state s' = Some (mkJackpotRow amount now "system" (js_version row + 1)) /\
        (0 <= amount /\ amount <= 10000000)%Q
  | TickError _ _ => s' = env s
  end.
Proof.
  rewrite performAutoIncrement_cases.
  destruct (Num.ltb _ 0 || Num.ltb 10000000 _) eqn:Hc.
  - intros H; inversion H; subst. reflexivity.
  - destruct (jackpot_state (env s)) as [row|]; intros H; inversion H; subst;
      [|reflexivity].
    eexists row, _. cbn [jackpot_state].
    split; [reflexivity|]. split; [reflexivity|].
    apply round3_within_limits. exact Hc.
Qed.

Lemma initDb_limits (u1 u2 : Q) (now : string) (s : Store) :
  jackpot_state s = None \/ amount_within_limits s ->
  amount_within_limits (initDb u1 u2 now s).
Proof.
  intros H. unfold initDb.
  set (s1 := match jackpot_state s with Some _ => s | None => _ end).
  assert (H1 : amount_within_limits s1).
  { subst s1. destruct (jackpot_state s) as [row|] eqn:E.
    - destruct H as [H|H]; [discriminate|exact H].
    - exists (mkJackpotRow 100 now "system" 1). cbn. repeat split; discriminate. }
  destruct (daily_target s1 !! isoDate now); exact H1.
Qed.

Lemma unit_start_limits (env : Store -> Store) (rnd : Random) (now : string) (s : Store) :
  (forall t, amount_within_limits t -> amount_within_limits (env t)) ->
  amount_within_limits s ->
  amount_within_limits (unit_start env rnd now s).
Proof.
  intros Henv H. unfold unit_start. apply Henv.
  destruct (getOrCreateDailyTargetPixel_inv (create_u1 rnd) (create_u2 rnd) now s)
    as (trow & Et & _).
  rewrite Et. exact H.
Qed.

Lemma handleClick_limits (env : Store -> Store) (rnd : Random) (now : string)
    (x y : Z) (userIdentifier : string) (s : Store) :
  (forall t, amount_within_limits t -> amount_within_limits (env t)) ->
  amount_within_limits s ->
  amount_within_limits (snd (handleClick env rnd now x y userIdentifier s)).
Proof.
  intros Henv H.
  destruct (handleClick env rnd now x y userIdentifier s) as [r s'] eqn:E. cbn [snd].
  destruct (is_success r) eqn:Hs.
  - destruct (handleClick_success_jackpot _ _ _ _ _ _ _ _ _ E Hs)
      as (row & amount & _ & Hj & Hl).
    eexists. split; [exact Hj|exact Hl].
  - destruct r as [type message| |]; try discriminate.
    destruct (handleClick_error_store _ _ _ _ _ _ _ _ _ _ E) as [[_ ->]|[_ ->]];
      [exact H | apply unit_start_limits; assumption].
Qed.

Lemma performAutoIncrement_limits (env : Store -> Store) (now : string) (s : Store) :
  (forall t, amount_within_limits t -> amount_within_limits (env t)) ->
  amount_within_limits s ->
  amount_within_limits (snd (performAutoIncrement env now s)).
Proof.
  intros Henv H.
  destruct (performAutoIncrement env now s) as [r s'] eqn:E. cbn [snd].
  pose proof (performAutoIncrement_jackpot _ _ _ _ _ E) as P.
  destruct r as [a|type message].
  - destruct P as (row & amount & _ & Hj & Hl). eexists. split; [exact Hj|exact Hl].
  - subst s'. apply Henv. exact H.
Qed.

Lemma quiet_limits (t : Store) : amount_within_limits t -> amount_within_limits (quiet t).
Proof. intros H; exact H. Qed.

Lemma run_calls_limits (cs : list Call) (s : Store) :
  amount_within_limits s -> amount_within_limits (run_calls cs s).
Proof.
  revert s. induction cs as [|c cs IH]; intros s H; [exact H|].
  cbn [run_calls fold_left]. apply IH.
  destruct c as [rnd now x y userIdentifier|now]; cbn [run_call].
  - apply handleClick_limits; [exact quiet_limits | exact H].
  - apply performAutoIncrement_limits; [exact quiet_limits | exact H].
Qed.

Lemma reachable_limits (s : Store) : reachable s -> amount_within_limits s.
Proof.
  induction 1 as [u1 u2 now | s u1 u2 now _ IH | s cs rnd now x y userIdentifier _ IH
                 | s cs now _ IH].
  - apply initDb_limits. left. reflexivity.
  - apply initDb_limits. right. exact IH.
  - apply handleClick_limits; [intros t; apply run_calls_limits | exact IH].
  - apply performAutoIncrement_limits; [intros t; apply run_calls_limits | exact IH].
Qed.

(** C7: in every reachable ledger the jackpot row exists and its amount is
    between 0 and 10,000,000; and every committed jackpot mutation, the
    transaction of a winning click, of a missing click or of a tick, leaves
    the row's [version] exactly 1 above the version of the store in which
    the transaction began. *)
Theorem jackpot_invariant :
  (forall s, reachable s -> amount_within_limits s) /\
  (forall env rnd now x y userIdentifier s r s',
      handleClick env rnd now x y userIdentifier s = (r, s') ->
      is_success r = true ->
      exists row row',
        jackpot_state (unit_start env rnd now s) = Some row /\
        jackpot_state s' = Some row' /\
        js_version row' = js_version row + 1) /\
  (forall env now s newJackpotAmount s',
      performAutoIncrement env now s = (TickSuccess newJackpotAmount, s') ->
      exists row row',
        jackpot_state (env s) = Some row /\
        jackpot_state s' = Some row' /\
        js_version row' = js_version row + 1).
Proof.
  split; [exact reachable_limits|]. split.
  - intros env rnd now x y userIdentifier s r s' H Hs.
    destruct (handleClick_success_jackpot _ _ _ _ _ _ _ _ _ H Hs)
      as (row & amount & Hj & Hj' & _).
    exists row. eexists. split; [exact Hj|]. split; [exact Hj'|]. reflexivity.
  - intros env now s a s' H.
    destruct (performAutoIncrement_jackpot _ _ _ _ _ H) as (row & amount & Hj & Hj' & _).
    exists row. eexists. split; [exact Hj|]. split; [exact Hj'|]. reflexivity.
Qed.

End JackpotInvariant.

Section InvariantWitness.

Lemma jackpot_invariant_witness :
  let r := handleClick quiet rnd0 now0 10 10 "198.51.100.23" store0 in
  reachable store0 /\
  amount_within_limits store0 /\
  is_success (fst r) = true /\
  exists row row',
    jackpot_state (unit_start quiet rnd0 now0 store0) = Some row /\
    jackpot_state (snd r) = Some row' /\
    js_version row' = js_version row + 1.
Proof.
  intros r.
  destruct jackpot_invariant as (Hlimits & Hclick & _).
  assert (Hreach : reachable store0) by apply reachable_init.
  assert (Hs : is_success (fst r) = true) by (vm_compute; reflexivity).
  split; [exact Hreach|]. split; [exact (Hlimits store0 Hreach)|]. split; [exact Hs|].
  exact (Hclick quiet rnd0 now0 10 10 "198.51.100.23" store0 (fst r) (snd r)
           (surjective_pairing r) Hs).
Defined.

End InvariantWitness.

(** * Further properties of the code *)

(** ** The attempt table *)

Section AttemptTable.

(** X1: An attempt that has been recorded is found again under its own
    (identifier, date); the key was free before; every other identifier or
    date is answered as before, and the other tables are not touched. *)
Theorem recordClickAttempt_then_hasAttemptedToday (identifier attempt_date now : string)
    (s s' : Store) (changed : bool) :
  recordClickAttempt identifier attempt_date now s = (inr changed, s') ->
  changed = true /\
  hasAttemptedToday identifier attempt_date s = false /\
  hasAttemptedToday identifier attempt_date s' = true /\
  (forall i d, (i, d) <> (identifier, attempt_date) ->
               hasAttemptedToday i d s' = hasAttemptedToday i d s) /\
  jackpot_state s' = jackpot_state s /\
  jackpot_history s' = jackpot_history s /\
  daily_target s' = daily_target s.
Proof.
  unfold recordClickAttempt, hasAttemptedToday.
  destruct (click_attempts s !! (identifier, attempt_date)) eqn:E; [discriminate|].
  intros H. inversion H; subst. cbn [click_attempts set_click_attempts jackpot_state
                                     jackpot_history daily_target].
  rewrite lookup_insert_eq. repeat (split; [reflexivity|]).
  split; [|auto]. intros i d Hne. rewrite lookup_insert_ne by congruence. reflexivity.
Qed.

Lemma recordClickAttempt_then_hasAttemptedToday_witness :
  let r := recordClickAttempt "198.51.100.23" "2026-03-14" now0 store0 in
  r = (inr true, snd r) /\
  hasAttemptedToday "198.51.100.23" "2026-03-14" (snd r) = true /\
  hasAttemptedToday "198.51.100.23" "2026-03-15" (snd r) =
    hasAttemptedToday "198.51.100.23" "2026-03-15" store0.
Proof.
  intros r.
  assert (E : r = (inr true, snd r)) by (vm_compute; reflexivity).
  split; [exact E|].
  destruct (recordClickAttempt_then_hasAttemptedToday "198.51.100.23" "2026-03-14" now0
              store0 (snd r) true E) as (_ & _ & H & Hother & _).
  split; [exact H|]. apply Hother. discriminate.
Defined.

(** X2: Recording the same (identifier, date) a second time, at whatever time,
    throws the uniqueness violation and leaves the store, with the first
    attempt's timestamp, as it is. *)
Theorem recordClickAttempt_twice (identifier attempt_date now now' : string)
    (s s' : Store) (changed : bool) :
  recordClickAttempt identifier attempt_date now s = (inr changed, s') ->
  recordClickAttempt identifier attempt_date now' s' =
    (inl (SqliteConstraintUnique "click_attempts"), s') /\
  click_attempts s' !! (identifier, attempt_date) = Some now.
Proof.
  intros H.
  assert (L : click_attempts s' !! (identifier, attempt_date) = Some now).
  { unfold recordClickAttempt in H.
    destruct (click_attempts s !! (identifier, attempt_date)); [discriminate|].
    inversion H; subst. apply lookup_insert_eq. }
  split; [|exact L]. unfold recordClickAttempt. rewrite L. reflexivity.
Qed.

Lemma recordClickAttempt_twice_witness :
  let r := recordClickAttempt "198.51.100.23" "2026-03-14" now0 store0 in
  r = (inr true, snd r) /\
  recordClickAttempt "198.51.100.23" "2026-03-14" later0 (snd r) =
    (inl (SqliteConstraintUnique "click_attempts"), snd r).
Proof.
  intros r.
  assert (E : r = (inr true, snd r)) by (vm_compute; reflexivity).
  split; [exact E|].
  exact (proj1 (recordClickAttempt_twice "198.51.100.23" "2026-03-14" now0 later0
                  store0 (snd r) true E)).
Defined.

End AttemptTable.

(** ** The daily target *)

Section DailyTarget.

(** X3: Reading the day's target again, at any later time of the same day and
    whatever [Math.random()] would return, gives the same pixel and writes
    nothing. *)
Theorem getOrCreateDailyTargetPixel_again (u1 u2 v1 v2 : Q) (now now' : string)
    (s s1 : Store) (targetPixel : TargetPixel) :
  getOrCreateDailyTargetPixel u1 u2 now s = (inr targetPixel, s1) ->
  isoDate now' = isoDate now ->
  getOrCreateDailyTargetPixel v1 v2 now' s1 = (inr targetPixel, s1).
Proof.
  intros H Hd.
  destruct (getOrCreateDailyTargetPixel_inv u1 u2 now s) as (trow & Et & _).
  rewrite Et in H. inversion H; subst. clear H.
  unfold getOrCreateDailyTargetPixel. rewrite Hd.
  cbn [daily_target set_daily_target]. rewrite lookup_insert_eq. reflexivity.
Qed.

Lemma getOrCreateDailyTargetPixel_again_witness :
  let r := getOrCreateDailyTargetPixel 0.5 0.25 now0 store_full in
  r = (inr target0, snd r) /\
  isoDate later0 = isoDate now0 /\
  getOrCreateDailyTargetPixel 0.9 0.9 later0 (snd r) = (inr target0, snd r).
Proof.
  intros r.
  assert (E : r = (inr target0, snd r)) by (vm_compute; reflexivity).
  assert (Hd : isoDate later0 = isoDate now0) by (vm_compute; reflexivity).
  split; [exact E|]. split; [exact Hd|].
  exact (getOrCreateDailyTargetPixel_again 0.5 0.25 0.9 0.9 now0 later0 store_full
           (snd r) target0 E Hd).
Defined.

(** X4: A forced rotation returns the pixel it has stored: the next read of
    the day finds exactly that pixel.  The day's row is the only thing
    written: the targets of other dates and the other three tables are as
    before, and the version is 1 for a new row and one more than before for
    an existing one. *)
Theorem forceNewDailyTarget_then_read (u1 u2 v1 v2 : Q) (now now' : string)
    (s s1 : Store) (r : Failure + TargetPixel) :
  forceNewDailyTarget u1 u2 now s = (r, s1) ->
  isoDate now' = isoDate now ->
  r = inr (mkTargetPixel (Num.random_coordinate u1) (Num.random_coordinate u2) (isoDate now)) /\
  getOrCreateDailyTargetPixel v1 v2 now' s1 = (r, s1) /\
  daily_target s1 !! isoDate now =
    Some (mkTargetRow (Num.random_coordinate u1) (Num.random_coordinate u2)
            match daily_target s !! isoDate now with
            | Some old => dt_version old + 1
            | None => 1
            end) /\
  (forall d, d <> isoDate now -> daily_target s1 !! d = daily_target s !! d) /\
  jackpot_state s1 = jackpot_state s /\
  jackpot_history s1 = jackpot_history s /\
  click_attempts s1 = click_attempts s.
Proof.
  unfold forceNewDailyTarget. intros H Hd. inversion H; subst. clear H.
  cbn [daily_target set_daily_target jackpot_state jackpot_history click_attempts].
  split; [reflexivity|]. split.
  - unfold getOrCreateDailyTargetPixel. rewrite Hd.
    cbn [daily_target set_daily_target]. rewrite lookup_insert_eq.
    destruct (daily_target s !! isoDate now); reflexivity.
  - split.
    + rewrite lookup_insert_eq. destruct (daily_target s !! isoDate now); reflexivity.
    + split; [|auto]. intros d Hne. apply lookup_insert_ne. congruence.
Qed.

Lemma forceNewDailyTarget_then_read_witness :
  let r := forceNewDailyTarget 0.125 0.75 now0 store0 in
  isoDate later0 = isoDate now0 /\
  getOrCreateDailyTargetPixel 0.9 0.9 later0 (snd r) = r /\
  daily_target (snd r) !! isoDate now0 = Some (mkTargetRow 125 750 2).
Proof.
  intros r.
  assert (Hd : isoDate later0 = isoDate now0) by (vm_compute; reflexivity).
  split; [exact Hd|].
  destruct (forceNewDailyTarget_then_read 0.125 0.75 0.9 0.9 now0 later0 store0
              (snd r) (fst r) (surjective_pairing r) Hd) as (_ & Hread & Hrow & _).
  split.
  - rewrite Hread. symmetry. apply surjective_pairing.
  - rewrite Hrow. vm_compute. reflexivity.
Defined.

Lemma rotations_snoc (draws : list (Q * Q)) (d : Q * Q) (now : string) (s : Store) :
  rotations (draws ++ [d]) now s =
    snd (forceNewDailyTarget (fst d) (snd d) now (rotations draws now s)).
Proof. unfold rotations. rewrite fold_left_app. reflexivity. Qed.

(** X5: Forced rotations of one day are never lost: after any non-empty series
    of them the day's row holds the pixel of the last draw, and its version
    has risen by one per rotation (counting from 0 when the day had no
    row). *)
Theorem rotations_count (draws : list (Q * Q)) (last : Q * Q) (now : string) (s : Store) :
  daily_target (rotations (draws ++ [last]) now s) !! isoDate now =
    Some (mkTargetRow (Num.random_coordinate (fst last)) (Num.random_coordinate (snd last))
            (match daily_target s !! isoDate now with
             | Some old => dt_version old
             | None => 0
             end + Z.of_nat (length (draws ++ [last])))).
Proof.
  revert last. induction draws as [|d draws IH] using rev_ind; intros last.
  - cbn [app length rotations fold_left fst snd forceNewDailyTarget
         daily_target set_daily_target].
    rewrite lookup_insert_eq. destruct (daily_target s !! isoDate now); reflexivity.
  - rewrite rotations_snoc. unfold forceNewDailyTarget at 1.
    cbn [snd daily_target set_daily_target]. rewrite lookup_insert_eq, IH.
    apply (f_equal Some), (f_equal (mkTargetRow _ _)).
    rewrite !length_app. cbn [length dt_version]. lia.
Qed.

End DailyTarget.

(** ** Amounts *)

Section Amounts.

Import Num.

Arguments Num.round3 : simpl never.

Lemma round3_milli (k : Z) : round3 (inject_Z k / 1000) = milli k.
Proof.
  unfold round3, milli. rewrite Math_round_milli. reflexivity.
Qed.

Lemma milli_eq (k : Z) : (milli k == inject_Z k / 1000)%Q.
Proof. unfold milli. apply Qred_correct. Qed.

Lemma round3_is_milli (v : Q) : round3 v = milli (Math_round (v * 1000)).
Proof. reflexivity. Qed.

(** Adding [d] thousandths to [k] thousandths and rounding gives exactly
    [k + d] thousandths. *)
Lemma round3_milli_plus (k d : Z) :
  round3 (milli k + inject_Z d / 1000) = milli (k + d).
Proof.
  transitivity (round3 (inject_Z (k + d) / 1000)); [|apply round3_milli].
  unfold round3. apply Qred_complete.
  assert (E : Math_round ((milli k + inject_Z d / 1000) * 1000) =
              Math_round (inject_Z (k + d) / 1000 * 1000)).
  { unfold Math_round. apply Qfloor_comp. rewrite milli_eq, inject_Z_plus. field. }
  rewrite E. reflexivity.
Qed.

(** X7: After [updateJackpot] has returned true, [getJackpot] returns the
    amount rounded to three decimals; the amount was within 0..10,000,000,
    the row existed, it now carries the new user and one more version, and
    history, targets and attempts are untouched. *)
Theorem updateJackpot_then_getJackpot (newAmount : Q) (userId now : string) (s s' : Store) :
  updateJackpot newAmount userId now s = (inr true, s') ->
  getJackpot s' = (inr (mkJackpot (round3 newAmount)), s') /\
  (0 <= newAmount /\ newAmount <= 10000000)%Q /\
  (exists row,
      jackpot_state s = Some row /\
      jackpot_state s' =
        Some (mkJackpotRow (round3 newAmount) now userId (js_version row + 1))) /\
  jackpot_history s' = jackpot_history s /\
  daily_target s' = daily_target s /\
  click_attempts s' = click_attempts s.
Proof.
  intros H.
  destruct (Qlt_le_dec newAmount 0) as [L|L].
  { rewrite updateJackpot_refused in H by (left; exact L). discriminate. }
  destruct (Qlt_le_dec 10000000 newAmount) as [U|U].
  { rewrite updateJackpot_refused in H by (right; exact U). discriminate. }
  rewrite updateJackpot_accepted in H by (split; assumption).
  destruct (jackpot_state s) as [row|] eqn:Hj; [|discriminate].
  inversion H; subst. clear H. rewrite getJackpot_eq.
  split; [reflexivity|]. split; [split; assumption|].
  split; [exists row; split; reflexivity|]. auto.
Qed.

Lemma updateJackpot_then_getJackpot_witness :
  let r := updateJackpot 150.75 "test-user" now0 store0 in
  r = (inr true, snd r) /\
  getJackpot (snd r) = (inr (mkJackpot (Num.round3 150.75)), snd r).
Proof.
  intros r.
  assert (E : r = (inr true, snd r)) by (vm_compute; reflexivity).
  split; [exact E|].
  exact (proj1 (updateJackpot_then_getJackpot 150.75 "test-user" now0 store0 (snd r) E)).
Defined.

End Amounts.

(** ** Distances *)

Section Distances.

Lemma round_sqrt_milli_mono (n m : Z) :
  (n <= m)%Z -> (Num.round_sqrt_milli n <= Num.round_sqrt_milli m)%Z.
Proof.
  intros H. unfold Num.round_sqrt_milli.
  apply Z.div_le_mono; [lia|].
  apply Z.add_le_mono_r. apply Z.sqrt_le_mono. lia.
Qed.

(** X8: With the target and the click both in the 1000 x 1000 grid, a click
    off the target is never reported nearer than 1 nor farther than
    1412.799, and the distance does not change when click and target are
    swapped. *)
Theorem roundedDistance_bounds (targetPixel : TargetPixel) (x y : Z) :
  in_range (tp_x targetPixel) (tp_y targetPixel) ->
  in_range x y ->
  (tp_x targetPixel <> x \/ tp_y targetPixel <> y) ->
  (1 <= roundedDistance targetPixel x y /\ roundedDistance targetPixel x y <= 1412.799)%Q /\
  roundedDistance (mkTargetPixel x y (tp_date targetPixel)) (tp_x targetPixel)
    (tp_y targetPixel) = roundedDistance targetPixel x y.
Proof.
  intros [Htx Hty] [Hx Hy] Hne. split.
  - rewrite roundedDistance_milli.
    set (n := ((tp_x targetPixel - x) ^ 2 + (tp_y targetPixel - y) ^ 2)%Z).
    assert (Hn : (1 <= n <= 1996002)%Z) by (subst n; nia).
    assert (Hlo : (1000 <= Num.round_sqrt_milli n)%Z).
    { change 1000%Z with (Num.round_sqrt_milli 1).
      apply round_sqrt_milli_mono. lia. }
    assert (Hhi : (Num.round_sqrt_milli n <= 1412799)%Z).
    { replace 1412799%Z with (Num.round_sqrt_milli 1996002) by (vm_compute; reflexivity).
      apply round_sqrt_milli_mono. lia. }
    rewrite Zle_Qle in Hlo, Hhi.
    change (inject_Z 1000) with 1000%Q in Hlo.
    change (inject_Z 1412799) with 1412799%Q in Hhi.
    set (k := inject_Z (Num.round_sqrt_milli n)) in *.
    assert (E : (k / 1000 == k * (1 # 1000))%Q) by field.
    rewrite E. split; lra.
  - unfold roundedDistance. cbn [tp_x tp_y]. f_equal. f_equal. f_equal. f_equal. lia.
Qed.

Lemma roundedDistance_bounds_witness :
  in_range 500 250 /\ in_range 10 10 /\
  (1 <= roundedDistance target0 10 10 /\ roundedDistance target0 10 10 <= 1412.799)%Q.
Proof.
  assert (Ht : in_range (tp_x target0) (tp_y target0)) by (unfold in_range; cbn; lia).
  assert (Hc : in_range 10 10) by (unfold in_range; lia).
  split; [exact Ht|]. split; [exact Hc|].
  apply (roundedDistance_bounds target0 10 10 Ht Hc). left. discriminate.
Defined.

End Distances.

(** ** Dates *)

Section Dates.

Lemma isoDate_before_T (d rest : string) :
  isoDate (isoDate d +:+ String "T"%char rest) = isoDate d.
Proof.
  induction d as [|c d IH]; [reflexivity|].
  cbn [isoDate]. destruct (Ascii.eqb c "T") eqn:E; [reflexivity|].
  change (String c (isoDate d) +:+ String "T"%char rest)
    with (String c (isoDate d +:+ String "T"%char rest)).
  cbn [isoDate]. rewrite E, IH. reflexivity.
Qed.

(** X9: The date part of a timestamp is a prefix of it and has no T in it, so
    cutting it again changes nothing; and a date part followed by T and
    any time of day is cut back to that date part: two moments of one day
    have the same date. *)
Theorem isoDate_round_trip (iso rest : string) :
  (exists tail, iso = isoDate iso +:+ tail) /\
  isoDate (isoDate iso) = isoDate iso /\
  isoDate (isoDate iso +:+ String "T"%char rest) = isoDate iso.
Proof.
  split; [|split].
  - induction iso as [|c iso [tail IH]]; [exists EmptyString; reflexivity|].
    cbn [isoDate]. destruct (Ascii.eqb c "T").
    + exists (String c iso). reflexivity.
    + exists tail. change (String c (isoDate iso) +:+ tail)
        with (String c (isoDate iso +:+ tail)). rewrite <- IH. reflexivity.
  - induction iso as [|c iso IH]; [reflexivity|].
    cbn [isoDate]. destruct (Ascii.eqb c "T") eqn:E; [reflexivity|].
    cbn [isoDate]. rewrite E, IH. reflexivity.
  - apply isoDate_before_T.
Qed.

End Dates.

(** ** Start and restart *)

Section Restart.

(** X10: [initDb] writes only what is missing.  Afterwards the jackpot row and
    the target of the day exist; a jackpot row that was there, the history,
    the attempts and every target that was there are kept as they were; and
    running it again on the same day, whatever the draws, changes nothing. *)
Theorem initDb_restart (u1 u2 v1 v2 : Q) (now now' : string) (s : Store) :
  let s' := initDb u1 u2 now s in
  (exists row, jackpot_state s' = Some row) /\
  (exists trow, daily_target s' !! isoDate now = Some trow) /\
  (forall row, jackpot_state s = Some row -> jackpot_state s' = Some row) /\
  (forall d trow, daily_target s !! d = Some trow -> daily_target s' !! d = Some trow) /\
  jackpot_history s' = jackpot_history s /\
  click_attempts s' = click_attempts s /\
  (isoDate now' = isoDate now -> initDb v1 v2 now' s' = s').
Proof.
  intros s'. subst s'. unfold initDb.
  set (s1 := match jackpot_state s with Some _ => s | None => _ end).
  assert (H1 : (exists row, jackpot_state s1 = Some row) /\
               (forall row, jackpot_state s = Some row -> jackpot_state s1 = Some row) /\
               daily_target s1 = daily_target s /\
               jackpot_history s1 = jackpot_history s /\
               click_attempts s1 = click_attempts s).
  { subst s1. destruct (jackpot_state s) as [row|] eqn:E.
    - split; [eauto|]. repeat split; auto; congruence.
    - split; [eexists; reflexivity|]. split; [discriminate|]. repeat split; auto. }
  destruct H1 as ((row1 & Hj1) & Hkeep & Ht1 & Hh1 & Ha1).
  destruct (daily_target s1 !! isoDate now) as [trow|] eqn:El.
  - split; [eauto|]. split; [eauto|]. split; [exact Hkeep|].
    split; [intros d r Hd; rewrite Ht1; exact Hd|]. split; [exact Hh1|]. split; [exact Ha1|].
    intros Hd. rewrite Hj1, Hd, El. reflexivity.
  - cbn [jackpot_state jackpot_history daily_target click_attempts set_daily_target].
    split; [eauto|]. split; [rewrite lookup_insert_eq; eauto|]. split; [exact Hkeep|].
    split.
    + intros d r Hd. rewrite Ht1 in El |- *.
      rewrite lookup_insert_ne; [exact Hd|]. intros <-. congruence.
    + split; [exact Hh1|]. split; [exact Ha1|].
      intros Hd. rewrite Hj1, Hd. cbv iota beta.
      cbn [daily_target set_daily_target]. rewrite lookup_insert_eq. reflexivity.
Qed.

Lemma initDb_restart_witness :
  isoDate later0 = isoDate now0 /\
  initDb 0.9 0.9 later0 store0 = store0.
Proof.
  assert (Hd : isoDate later0 = isoDate now0) by (vm_compute; reflexivity).
  split; [exact Hd|].
  destruct (initDb_restart 0.5 0.25 0.9 0.9 now0 later0 empty_store)
    as (_ & _ & _ & _ & _ & _ & H).
  exact (H Hd).
Defined.

End Restart.

(** ** What a click writes *)

Section ClickFootprint.

Arguments Num.round3 : simpl never.

(** The store a successful click leaves, over the store [t] in which its
    transaction began. *)
Lemma handleClick_success_cases (env : Store -> Store) (rnd : Random) (now : string)
    (x y : Z) (userIdentifier : string) (s s' : Store) (r : ClickResult) :
  handleClick env rnd now x y userIdentifier s = (r, s') ->
  is_success r = true ->
  let t := unit_start env rnd now s in
  exists row trow,
    jackpot_state t = Some row /\
    getOrCreateDailyTargetPixel (create_u1 rnd) (create_u2 rnd) now s =
      (inr (mkTargetPixel (dt_target_x trow) (dt_target_y trow) (isoDate now)),
       set_daily_target (<[isoDate now := trow]> (daily_target s)) s) /\
    ((r = ClickWin (roundedDistance (mkTargetPixel (dt_target_x trow) (dt_target_y trow)
                                       (isoDate now)) x y)
               (dt_target_x trow) (dt_target_y trow) (snapshot_amount s) 100 /\
      s' = mkStore
             (Some (mkJackpotRow 100 now userIdentifier (js_version row + 1)))
             (jackpot_history t ++
                [mkHistoryRow now (snapshot_amount s) 100 "JACKPOT_WIN" userIdentifier])
             (<[isoDate now :=
                  match daily_target t !! isoDate now with
                  | Some old =>
                      mkTargetRow (Num.random_coordinate (force_u1 rnd))
                        (Num.random_coordinate (force_u2 rnd)) (dt_version old + 1)
                  | None =>
                      mkTargetRow (Num.random_coordinate (force_u1 rnd))
                        (Num.random_coordinate (force_u2 rnd)) 1
                  end]> (daily_target t))
             (<[(userIdentifier, isoDate now) := now]> (click_attempts t))) \/
     (r = ClickMiss (roundedDistance (mkTargetPixel (dt_target_x trow) (dt_target_y trow)
                                        (isoDate now)) x y)
               (dt_target_x trow) (dt_target_y trow)
               (Num.round3 (snapshot_amount s + 0.001)) /\
      s' = mkStore
             (Some (mkJackpotRow (Num.round3 (snapshot_amount s + 0.001)) now
                      userIdentifier (js_version row + 1)))
             (jackpot_history t ++
                [mkHistoryRow now (snapshot_amount s)
                   (Num.round3 (snapshot_amount s + 0.001)) "INCREMENT" userIdentifier])
             (daily_target t)
             (<[(userIdentifier, isoDate now) := now]> (click_attempts t)))).
Proof.
  intros H Hs t.
  destruct (handleClick_success_recorded _ _ _ _ _ _ _ _ _ H Hs) as (Hr & Hg & _ & _).
  destruct (getOrCreateDailyTargetPixel_inv (create_u1 rnd) (create_u2 rnd) now s)
    as (trow & Et & _).
  rewrite (handleClick_resolved env rnd now x y userIdentifier s trow Hr Hg Et) in H.
  rewrite winTransaction_cases, missTransaction_cases in H. fold t in H.
  destruct (Qeq_bool _ 0).
  - destruct (jackpot_state t) as [row|]; [|inversion H; subst; discriminate].
    destruct (hasAttemptedToday userIdentifier (isoDate now) t);
      [inversion H; subst; discriminate|].
    inversion H; subst. exists row, trow. split; [reflexivity|]. split; [exact Et|].
    left. split; reflexivity.
  - destruct (Num.ltb _ 0 || Num.ltb 10000000 _);
      [inversion H; subst; discriminate|].
    destruct (jackpot_state t) as [row|]; [|inversion H; subst; discriminate].
    destruct (hasAttemptedToday userIdentifier (isoDate now) t);
      [inversion H; subst; discriminate|].
    inversion H; subst. exists row, trow. split; [reflexivity|]. split; [exact Et|].
    right. rewrite round3_idem. split; reflexivity.
Qed.

(** With no other writer, the transaction begins in the caller's store
    plus, at most, the day's target row. *)
Lemma unit_start_quiet_tables (rnd : Random) (now : string) (s : Store) :
  let t := unit_start quiet rnd now s in
  jackpot_state t = jackpot_state s /\
  jackpot_history t = jackpot_history s /\
  click_attempts t = click_attempts s /\
  (forall d, d <> isoDate now -> daily_target t !! d = daily_target s !! d) /\
  (forall old, daily_target s !! isoDate now = Some old -> daily_target t = daily_target s) /\
  (daily_target s !! isoDate now = None ->
   daily_target t =
     <[isoDate now := mkTargetRow (Num.random_coordinate (create_u1 rnd))
                        (Num.random_coordinate (create_u2 rnd)) 1]> (daily_target s)).
Proof.
  intros t. subst t.
  destruct (unit_start_quiet rnd now s) as (trow & -> & Ht).
  cbn [jackpot_state jackpot_history click_attempts daily_target set_daily_target].
  repeat (split; [reflexivity|]). split; [|split].
  - intros d Hne. apply lookup_insert_ne. congruence.
  - intros old E. rewrite E in Ht. subst trow. apply insert_id. exact E.
  - intros E. rewrite E in Ht. subst trow. reflexivity.
Qed.

(** X11: A click served alone appends one history entry when it succeeds,
    JACKPOT_WIN for a win and INCREMENT for a miss, stamped with the call's
    time and the caller, starting from the amount the ledger held; it
    appends nothing when it is answered with an error. *)
Theorem handleClick_history (rnd : Random) (now : string) (x y : Z)
    (userIdentifier : string) (s s' : Store) (r : ClickResult) :
  handleClick quiet rnd now x y userIdentifier s = (r, s') ->
  if is_success r
  then exists newAmount,
      jackpot_history s' =
        (jackpot_history s ++
           [mkHistoryRow now (snapshot_amount s) newAmount
              (if is_win r then "JACKPOT_WIN" else "INCREMENT") userIdentifier])%list /\
      snapshot_amount s' = newAmount
  else jackpot_history s' = jackpot_history s.
Proof.
  intros H. destruct (is_success r) eqn:Hs.
  - destruct (handleClick_success_cases _ _ _ _ _ _ _ _ _ H Hs)
      as (row & trow & _ & _ & [[-> ->]|[-> ->]]);
    destruct (unit_start_quiet_tables rnd now s) as (_ & -> & _);
    eexists; split; reflexivity.
  - destruct r as [type message| |]; try discriminate.
    destruct (handleClick_error_store _ _ _ _ _ _ _ _ _ _ H) as [[_ ->]|[_ ->]];
      [reflexivity|].
    destruct (unit_start_quiet_tables rnd now s) as (_ & -> & _). reflexivity.
Qed.

Lemma handleClick_history_witness :
  let r := handleClick quiet rnd0 now0 10 10 "198.51.100.23" store0 in
  exists newAmount,
    jackpot_history (snd r) =
      [mkHistoryRow now0 100 newAmount "INCREMENT" "198.51.100.23"] /\
    snapshot_amount (snd r) = newAmount.
Proof.
  intros r.
  pose proof (handleClick_history rnd0 now0 10 10 "198.51.100.23" store0 (snd r) (fst r)
                (surjective_pairing r)) as H.
  exact H.
Defined.

(** X13: After a win the day's target is the pixel of the forced draw: the next
    read of that day, by whoever and whenever, returns it and writes
    nothing. *)
Theorem win_rotates_target (rnd : Random) (now now' : string) (x y : Z) (v1 v2 : Q)
    (userIdentifier : string) (s s' : Store) (r : ClickResult) :
  handleClick quiet rnd now x y userIdentifier s = (r, s') ->
  is_win r = true ->
  isoDate now' = isoDate now ->
  getOrCreateDailyTargetPixel v1 v2 now' s' =
    (inr (mkTargetPixel (Num.random_coordinate (force_u1 rnd))
            (Num.random_coordinate (force_u2 rnd)) (isoDate now)), s').
Proof.
  intros H Hw Hd.
  assert (Hs : is_success r = true) by (unfold is_success; rewrite Hw; reflexivity).
  destruct (handleClick_success_cases _ _ _ _ _ _ _ _ _ H Hs)
    as (row & trow & _ & _ & [[-> ->]|[-> _]]); [|discriminate].
  unfold getOrCreateDailyTargetPixel. rewrite Hd. cbn [daily_target].
  rewrite lookup_insert_eq.
  destruct (daily_target (unit_start quiet rnd now s) !! isoDate now); reflexivity.
Qed.

Lemma win_rotates_target_witness :
  let r := handleClick quiet rnd0 now0 500 250 "198.51.100.23" store0 in
  is_win (fst r) = true /\
  isoDate later0 = isoDate now0 /\
  getOrCreateDailyTargetPixel 0.9 0.9 later0 (snd r) =
    (inr (mkTargetPixel 125 750 "2026-03-14"), snd r).
Proof.
  intros r.
  assert (Hw : is_win (fst r) = true) by (vm_compute; reflexivity).
  assert (Hd : isoDate later0 = isoDate now0) by (vm_compute; reflexivity).
  split; [exact Hw|]. split; [exact Hd|].
  exact (win_rotates_target rnd0 now0 later0 500 250 0.9 0.9 "198.51.100.23" store0
           (snd r) (fst r) (surjective_pairing r) Hw Hd).
Defined.

End ClickFootprint.

(** ** The audit trail *)

Section AuditTrail.

Arguments Num.round3 : simpl never.

Lemma chained_snoc (start final next : Q) (h : list HistoryRow)
    (timestamp action user : string) :
  chained start h final ->
  chained start (h ++ [mkHistoryRow timestamp final next action user]) next.
Proof.
  revert start. induction h as [|e h IH]; intros start H.
  - cbn in H |- *. subst. split; reflexivity.
  - destruct H as [H1 H2]. split; [exact H1|]. apply IH. exact H2.
Qed.

(** A tick served alone: what it leaves when it succeeds, and the store
    as it was when it fails. *)
Lemma performAutoIncrement_quiet (now : string) (s s' : Store) (r : TickResult) :
  performAutoIncrement quiet now s = (r, s') ->
  (exists row,
      jackpot_state s = Some row /\
      r = TickSuccess (Num.round3 (js_current_amount row + 0.01)) /\
      s' = mkStore
             (Some (mkJackpotRow (Num.round3 (js_current_amount row + 0.01)) now "system"
                      (js_version row + 1)))
             (jackpot_history s ++
                [mkHistoryRow now (js_current_amount row)
                   (Num.round3 (js_current_amount row + 0.01)) "AUTO_INCREMENT" "system"])
             (daily_target s) (click_attempts s)) \/
  (r = TickError server_error "Auto increment failed." /\ s' = s /\
   (jackpot_state s = None \/
    (Num.round3 (snapshot_amount s + 0.01) < 0)%Q \/
    (10000000 < Num.round3 (snapshot_amount s + 0.01))%Q)).
Proof.
  rewrite performAutoIncrement_cases. unfold quiet.
  destruct (Num.ltb _ 0 || Num.ltb 10000000 _) eqn:Hc.
  - intros H. inversion H; subst. right. split; [reflexivity|]. split; [reflexivity|].
    right. apply orb_true_iff in Hc as [Hc|Hc]; apply ltb_lt in Hc; auto.
  - unfold snapshot_amount. destruct (jackpot_state s) as [row|] eqn:Hj;
      intros H; inversion H; subst.
    + left. exists row. rewrite round3_idem. auto.
    + right. auto.
Qed.

Lemma run_call_chained (c : Call) (s : Store) (start : Q) :
  (exists row, jackpot_state s = Some row /\
               chained start (jackpot_history s) (js_current_amount row)) ->
  exists row, jackpot_state (run_call c s) = Some row /\
              chained start (jackpot_history (run_call c s)) (js_current_amount row).
Proof.
  intros (row & Hj & Hc).
  assert (Ha : snapshot_amount s = js_current_amount row)
    by (unfold snapshot_amount; rewrite Hj; reflexivity).
  destruct c as [rnd now x y userIdentifier|now]; cbn [run_call].
  - destruct (handleClick quiet rnd now x y userIdentifier s) as [r s'] eqn:E. cbn [snd].
    destruct (unit_start_quiet_tables rnd now s) as (Hj1 & Hh1 & _).
    destruct (is_success r) eqn:Hs.
    + destruct (handleClick_success_cases _ _ _ _ _ _ _ _ _ E Hs)
        as (row1 & trow & _ & _ & [[_ ->]|[_ ->]]);
      eexists; (split; [reflexivity|]); cbn [jackpot_history js_current_amount];
      rewrite Hh1, Ha; apply chained_snoc; exact Hc.
    + destruct r as [type message| |]; try discriminate.
      destruct (handleClick_error_store _ _ _ _ _ _ _ _ _ _ E) as [[_ ->]|[_ ->]].
      * exists row. split; assumption.
      * exists row. rewrite Hj1, Hh1. split; assumption.
  - destruct (performAutoIncrement quiet now s) as [r s'] eqn:E. cbn [snd].
    destruct (performAutoIncrement_quiet _ _ _ _ E)
      as [(row1 & Hj1 & _ & ->)|(_ & -> & _)].
    + rewrite Hj in Hj1. inversion Hj1; subst row1.
      eexists. split; [reflexivity|]. cbn [jackpot_history js_current_amount].
      apply chained_snoc. exact Hc.
    + exists row. split; assumption.
Qed.

(** X14: In a ledger served by a single process the history is a gapless
    account of the jackpot: its entries lead from the initial 100 to the
    amount the jackpot row holds now, each entry starting from the amount the
    one before it ended with. *)
Theorem served_history_chained (s : Store) :
  served s ->
  exists row, jackpot_state s = Some row /\
              chained 100 (jackpot_history s) (js_current_amount row).
Proof.
  assert (Hinit : forall u1 u2 now t,
             (jackpot_state t = None /\ jackpot_history t = []) \/
             (exists row, jackpot_state t = Some row /\
                          chained 100 (jackpot_history t) (js_current_amount row)) ->
             exists row, jackpot_state (initDb u1 u2 now t) = Some row /\
                         chained 100 (jackpot_history (initDb u1 u2 now t))
                           (js_current_amount row)).
  { intros u1 u2 now t H. unfold initDb.
    set (t1 := match jackpot_state t with Some _ => t | None => _ end).
    assert (H1 : exists row, jackpot_state t1 = Some row /\
                             chained 100 (jackpot_history t1) (js_current_amount row)).
    { subst t1. destruct H as [[Hn Hh]|(row & Hj & Hc)].
      - rewrite Hn. eexists. split; [reflexivity|].
        cbn [jackpot_history set_jackpot_state]. rewrite Hh. reflexivity.
      - rewrite Hj. exists row. split; assumption. }
    destruct (daily_target t1 !! isoDate now); exact H1. }
  induction 1 as [u1 u2 now | s u1 u2 now _ IH | s c _ IH].
  - apply Hinit. left. split; reflexivity.
  - apply Hinit. right. exact IH.
  - apply run_call_chained. exact IH.
Qed.

Lemma served_history_chained_witness :
  let s := run_calls [Click rnd0 now0 10 10 "198.51.100.23"; Tick later0;
                      Click rnd0 later0 500 250 "203.0.113.7"] store0 in
  served s /\
  exists row, jackpot_state s = Some row /\
              chained 100 (jackpot_history s) (js_current_amount row).
Proof.
  intros s.
  assert (H : served s).
  { subst s. cbn [run_calls fold_left]. do 3 apply served_call. apply served_init. }
  split; [exact H|]. exact (served_history_chained s H).
Defined.

(** X15: No series of calls ever rewrites or shortens the history: what was
    logged stays at the front, and at most one entry is added per call. *)
Theorem run_calls_history_prefix (cs : list Call) (s : Store) :
  exists added,
    jackpot_history (run_calls cs s) = (jackpot_history s ++ added)%list /\
    (length added <= length cs)%nat.
Proof.
  revert s. induction cs as [|c cs IH]; intros s.
  - exists []. split; [symmetry; apply app_nil_r|]. cbn; lia.
  - cbn [run_calls fold_left]. fold (run_calls cs (run_call c s)).
    destruct (IH (run_call c s)) as (added & E & L).
    assert (Hc : exists one, jackpot_history (run_call c s) = (jackpot_history s ++ one)%list /\
                             (length one <= 1)%nat).
    { destruct c as [rnd now x y userIdentifier|now]; cbn [run_call].
      - destruct (handleClick quiet rnd now x y userIdentifier s) as [r s'] eqn:Ec.
        cbn [snd]. destruct (unit_start_quiet_tables rnd now s) as (_ & Hh & _).
        destruct (is_success r) eqn:Hs.
        + destruct (handleClick_success_cases _ _ _ _ _ _ _ _ _ Ec Hs)
            as (row & trow & _ & _ & [[_ ->]|[_ ->]]);
          cbn [jackpot_history]; rewrite Hh; (eexists; split; [reflexivity|cbn; lia]).
        + destruct r as [type message| |]; try discriminate.
          exists []. split; [|cbn; lia]. rewrite app_nil_r.
          destruct (handleClick_error_store _ _ _ _ _ _ _ _ _ _ Ec) as [[_ ->]|[_ ->]];
            [reflexivity|exact Hh].
      - destruct (performAutoIncrement quiet now s) as [r s'] eqn:Ec. cbn [snd].
        destruct (performAutoIncrement_quiet _ _ _ _ Ec)
          as [(row & _ & _ & ->)|(_ & -> & _)].
        + eexists. split; [reflexivity|cbn; lia].
        + exists []. split; [symmetry; apply app_nil_r|cbn; lia]. }
    destruct Hc as (one & E1 & L1).
    exists (one ++ added)%list. rewrite E, E1, <- app_assoc, length_app.
    split; [reflexivity|].
    cbn [length]. lia.
Qed.

(** X16: A tick that fails, served alone, is answered with the server error and
    leaves the whole store as it was; it fails only without the jackpot
    row or when the new amount is outside the limits of [updateJackpot]. *)
Theorem performAutoIncrement_failure (now : string) (s s' : Store)
    (type : ErrorType) (message : string) :
  performAutoIncrement quiet now s = (TickError type message, s') ->
  s' = s /\
  type = server_error /\ message = "Auto increment failed." /\
  (jackpot_state s = None \/
   (Num.round3 (snapshot_amount s + 0.01) < 0)%Q \/
   (10000000 < Num.round3 (snapshot_amount s + 0.01))%Q).
Proof.
  intros H.
  destruct (performAutoIncrement_quiet _ _ _ _ H) as [(row & _ & Hr & _)|(Hr & Hs & Hw)].
  - discriminate.
  - inversion Hr; subst. auto.
Qed.

Lemma performAutoIncrement_failure_witness :
  performAutoIncrement quiet now0 store_full =
    (TickError server_error "Auto increment failed.", store_full) /\
  (10000000 < Num.round3 (snapshot_amount store_full + 0.01))%Q.
Proof.
  assert (E : performAutoIncrement quiet now0 store_full =
              (TickError server_error "Auto increment failed.", store_full))
    by (vm_compute; reflexivity).
  split; [exact E|].
  destruct (performAutoIncrement_failure now0 store_full store_full server_error
              "Auto increment failed." E) as (_ & _ & _ & [H|[H|H]]).
  - discriminate.
  - vm_compute in H. discriminate.
  - exact H.
Defined.

End AuditTrail.

(** ** Whole thousandths *)

Section Thousandths.

Import Num.

Arguments Num.round3 : simpl never.

Lemma round3_comp (v w : Q) : (v == w)%Q -> round3 v = round3 w.
Proof.
  intros E. unfold round3. apply Qred_complete.
  assert (E' : Math_round (v * 1000) = Math_round (w * 1000)).
  { unfold Math_round. apply Qfloor_comp. rewrite E. reflexivity. }
  rewrite E'. reflexivity.
Qed.

Lemma milli_le (k n : Z) : (k <= n)%Z -> (milli k <= milli n)%Q.
Proof.
  intros H. rewrite !milli_eq. rewrite Zle_Qle in H.
  assert (E : forall z : Q, (z / 1000 == z * (1 # 1000))%Q) by (intros; field).
  rewrite !E. lra.
Qed.

(** What a tick served alone does to a jackpot of [k] thousandths. *)
Lemma tick_on_milli (now : string) (s : Store) (row : JackpotRow) (k : Z) :
  jackpot_state s = Some row ->
  js_current_amount row = milli k ->
  (0 <= k /\ k + 10 <= 10000000000)%Z ->
  run_call (Tick now) s =
    mkStore (Some (mkJackpotRow (milli (k + 10)) now "system" (js_version row + 1)))
      (jackpot_history s ++
         [mkHistoryRow now (milli k) (milli (k + 10)) "AUTO_INCREMENT" "system"])
      (daily_target s) (click_attempts s).
Proof.
  intros Hj Ha [Hk0 Hk1]. cbn [run_call].
  rewrite performAutoIncrement_cases. unfold quiet, snapshot_amount. rewrite Hj, Ha.
  assert (E : round3 (milli k + 0.01) = milli (k + 10)).
  { rewrite <- round3_milli_plus.
    apply round3_comp, Qplus_comp; [reflexivity | vm_compute; reflexivity]. }
  rewrite E.
  assert (H0 : ltb (milli (k + 10)) 0 = false).
  { apply ltb_ge. change 0%Q with (milli 0). apply milli_le. lia. }
  assert (H1 : ltb 10000000 (milli (k + 10)) = false).
  { apply ltb_ge. change 10000000%Q with (milli 10000000000). apply milli_le. lia. }
  rewrite H0, H1. cbn [orb snd].
  rewrite round3_is_milli.
  assert (E2 : Math_round (milli (k + 10) * 1000) = (k + 10)%Z).
  { rewrite <- (Math_round_milli (k + 10)) at 2. unfold Math_round. apply Qfloor_comp.
    rewrite milli_eq. reflexivity. }
  rewrite E2. reflexivity.
Qed.

(** X17: Ticks add up exactly: after [n] ticks served one after the other on a
    jackpot of [k] thousandths that stays within the ceiling, the jackpot
    is [k + 10 n] thousandths, its version has risen by [n], the history
    is [n] entries longer, and targets and attempts are as before. *)
Theorem ticks_add_up (nows : list string) (s : Store) (row : JackpotRow) (k : Z) :
  jackpot_state s = Some row ->
  js_current_amount row = milli k ->
  (0 <= k /\ k + 10 * Z.of_nat (length nows) <= 10000000000)%Z ->
  let s' := run_calls (ticks nows) s in
  (exists row',
      jackpot_state s' = Some row' /\
      js_current_amount row' = milli (k + 10 * Z.of_nat (length nows)) /\
      js_version row' = js_version row + Z.of_nat (length nows)) /\
  length (jackpot_history s') = (length (jackpot_history s) + length nows)%nat /\
  daily_target s' = daily_target s /\
  click_attempts s' = click_attempts s.
Proof.
  revert s row k. induction nows as [|now nows IH]; intros s row k Hj Ha [Hk0 Hk1] s'.
  - subst s'. cbn [ticks map run_calls fold_left length Z.of_nat].
    split; [exists row; repeat split; [exact Hj | rewrite Ha; f_equal; lia | lia]|].
    repeat split. lia.
  - subst s'. cbn [ticks map run_calls fold_left].
    fold (ticks nows). fold (run_calls (ticks nows) (run_call (Tick now) s)).
    cbn [length] in Hk1 |- *. rewrite Nat2Z.inj_succ in Hk1 |- *.
    rewrite (tick_on_milli now s row k Hj Ha) by lia.
    match goal with |- context [run_calls (ticks nows) ?t] => set (s1 := t) end.
    destruct (IH s1 (mkJackpotRow (milli (k + 10)) now "system" (js_version row + 1))
                (k + 10)%Z eq_refl eq_refl ltac:(lia))
      as ((row' & Hj' & Ha' & Hv') & Hh & Ht & Hc).
    split.
    + exists row'. split; [exact Hj'|]. split.
      * rewrite Ha'. f_equal. lia.
      * rewrite Hv'. cbn [js_version]. lia.
    + rewrite Hh, Ht, Hc. subst s1. cbn [jackpot_history daily_target click_attempts].
      rewrite length_app. cbn [length]. repeat split. lia.
Qed.

Lemma ticks_add_up_witness :
  let s' := run_calls (ticks [now0; later0; later0]) store0 in
  exists row',
    jackpot_state s' = Some row' /\
    js_current_amount row' = milli 100030 /\
    js_version row' = 4%Z.
Proof.
  intros s'.
  destruct (ticks_add_up [now0; later0; later0] store0 row0 100000) as (H & _).
  - vm_compute; reflexivity.
  - vm_compute; reflexivity.
  - cbn [length]. lia.
  - exact H.
Defined.

Lemma handleClick_thousandths (env : Store -> Store) (rnd : Random) (now : string)
    (x y : Z) (userIdentifier : string) (s : Store) :
  (forall t, (exists row k, jackpot_state t = Some row /\ js_current_amount row = milli k) ->
             exists row k, jackpot_state (env t) = Some row /\ js_current_amount row = milli k) ->
  (exists row k, jackpot_state s = Some row /\ js_current_amount row = milli k) ->
  exists row k,
    jackpot_state (snd (handleClick env rnd now x y userIdentifier s)) = Some row /\
    js_current_amount row = milli k.
Proof.
  intros Henv H.
  assert (Ht : exists row k, jackpot_state (unit_start env rnd now s) = Some row /\
                             js_current_amount row = milli k).
  { unfold unit_start. apply Henv.
    destruct (getOrCreateDailyTargetPixel_inv (create_u1 rnd) (create_u2 rnd) now s)
      as (trow & -> & _). exact H. }
  destruct (handleClick env rnd now x y userIdentifier s) as [r s'] eqn:E. cbn [snd].
  destruct (is_success r) eqn:Hs.
  - destruct (handleClick_success_cases _ _ _ _ _ _ _ _ _ E Hs)
      as (row & trow & _ & _ & [[_ ->]|[_ ->]]).
    + exists (mkJackpotRow 100 now userIdentifier (js_version row + 1)), 100000%Z.
      split; reflexivity.
    + eexists _, _. split; [reflexivity|]. apply round3_is_milli.
  - destruct r as [type message| |]; try discriminate.
    destruct (handleClick_error_store _ _ _ _ _ _ _ _ _ _ E) as [[_ ->]|[_ ->]];
      assumption.
Qed.

Lemma performAutoIncrement_thousandths (env : Store -> Store) (now : string) (s : Store) :
  (forall t, (exists row k, jackpot_state t = Some row /\ js_current_amount row = milli k) ->
             exists row k, jackpot_state (env t) = Some row /\ js_current_amount row = milli k) ->
  (exists row k, jackpot_state s = Some row /\ js_current_amount row = milli k) ->
  exists row k,
    jackpot_state (snd (performAutoIncrement env now s)) = Some row /\
    js_current_amount row = milli k.
Proof.
  intros Henv H. rewrite performAutoIncrement_cases.
  destruct (Num.ltb _ 0 || Num.ltb 10000000 _); [apply Henv; exact H|].
  destruct (jackpot_state (env s)) as [row|] eqn:Hj; [|apply Henv; exact H].
  eexists _, _. split; [reflexivity|]. apply round3_is_milli.
Qed.

Lemma run_calls_thousandths (cs : list Call) (s : Store) :
  (exists row k, jackpot_state s = Some row /\ js_current_amount row = milli k) ->
  exists row k, jackpot_state (run_calls cs s) = Some row /\ js_current_amount row = milli k.
Proof.
  revert s. induction cs as [|c cs IH]; intros s H; [exact H|].
  cbn [run_calls fold_left]. apply IH.
  destruct c as [rnd now x y userIdentifier|now]; cbn [run_call].
  - apply handleClick_thousandths; [intros t Ht; exact Ht | exact H].
  - apply performAutoIncrement_thousandths; [intros t Ht; exact Ht | exact H].
Qed.

Lemma initDb_thousandths (u1 u2 : Q) (now : string) (s : Store) :
  jackpot_state s = None \/
  (exists row k, jackpot_state s = Some row /\ js_current_amount row = milli k) ->
  exists row k, jackpot_state (initDb u1 u2 now s) = Some row /\
                js_current_amount row = milli k.
Proof.
  intros H. unfold initDb.
  set (s1 := match jackpot_state s with Some _ => s | None => _ end).
  assert (H1 : exists row k, jackpot_state s1 = Some row /\ js_current_amount row = milli k).
  { subst s1. destruct H as [Hn|(row & k & Hj & Ha)].
    - rewrite Hn. exists (mkJackpotRow 100 now "system" 1), 100000%Z. split; reflexivity.
    - rewrite Hj. exists row, k. split; assumption. }
  destruct (daily_target s1 !! isoDate now); exact H1.
Qed.

(** X18: In every reachable ledger the jackpot is a whole number of
    thousandths, between 0 and 10,000,000,000 of them: no call ever stores
    an amount with more than three decimals. *)
Theorem reachable_thousandths (s : Store) :
  reachable s ->
  exists row k,
    jackpot_state s = Some row /\ js_current_amount row = milli k /\
    (0 <= k <= 10000000000)%Z.
Proof.
  intros H.
  assert (Hm : exists row k, jackpot_state s = Some row /\ js_current_amount row = milli k).
  { induction H as [u1 u2 now | s u1 u2 now _ IH | s cs rnd now x y userIdentifier _ IH
                   | s cs now _ IH].
    - apply initDb_thousandths. left. reflexivity.
    - apply initDb_thousandths. right. exact IH.
    - apply handleClick_thousandths; [intros t; apply run_calls_thousandths | exact IH].
    - apply performAutoIncrement_thousandths; [intros t; apply run_calls_thousandths
                                              | exact IH]. }
  destruct Hm as (row & k & Hj & Ha). exists row, k. split; [exact Hj|]. split; [exact Ha|].
  destruct (reachable_limits s H) as (row' & Hj' & H0 & H1).
  rewrite Hj in Hj'. inversion Hj'; subst row'. rewrite Ha, milli_eq in H0, H1.
  assert (E : (inject_Z k / 1000 == inject_Z k * (1 # 1000))%Q) by field.
  rewrite E in H0, H1.
  assert (K0 : (inject_Z 0 <= inject_Z k)%Q) by (change (inject_Z 0) with 0%Q; lra).
  assert (K1 : (inject_Z k <= inject_Z 10000000000)%Q)
    by (change (inject_Z 10000000000) with 10000000000%Q; lra).
  rewrite <- Zle_Qle in K0, K1. lia.
Qed.

Lemma reachable_thousandths_witness :
  let s := snd (handleClick rival rnd0 now0 10 10 "198.51.100.23" store0) in
  reachable s /\
  exists row k,
    jackpot_state s = Some row /\ js_current_amount row = milli k /\
    (0 <= k <= 10000000000)%Z.
Proof.
  intros s.
  assert (H : reachable s).
  { subst s. unfold rival. apply reachable_click. apply reachable_init. }
  split; [exact H|]. exact (reachable_thousandths s H).
Defined.

End Thousandths.

(** ** Targets stay on the grid *)

Section TargetsOnGrid.

Lemma random_coordinates_in_range (u1 u2 : Q) :
  unit_interval u1 -> unit_interval u2 ->
  in_range (Num.random_coordinate u1) (Num.random_coordinate u2).
Proof.
  intros [H1 H1'] [H2 H2']. split; apply random_coordinate_range; assumption.
Qed.

Lemma targets_in_range_insert (s s' : Store) (d : string) (row : TargetRow) :
  targets_in_range s ->
  in_range (dt_target_x row) (dt_target_y row) ->
  daily_target s' = <[d := row]> (daily_target s) ->
  targets_in_range s'.
Proof.
  intros Hs Hrow E d' row' Hl. rewrite E in Hl.
  destruct (decide (d = d')) as [->|Hne].
  - rewrite lookup_insert_eq in Hl. inversion Hl; subst. exact Hrow.
  - rewrite lookup_insert_ne in Hl by exact Hne. exact (Hs d' row' Hl).
Qed.

(** X19: With [Math.random()] in [0, 1), a click served alone on a ledger whose
    targets are all on the 1000 x 1000 grid leaves them all on the grid,
    the created and the rotated ones included, and the target it discloses
    in a win or a miss is on the grid. *)
Theorem handleClick_targets_in_range (rnd : Random) (now : string) (x y : Z)
    (userIdentifier : string) (s s' : Store) (r : ClickResult) :
  handleClick quiet rnd now x y userIdentifier s = (r, s') ->
  random_in_unit_interval rnd ->
  targets_in_range s ->
  targets_in_range s' /\
  match r with
  | ClickWin _ targetX targetY _ _ | ClickMiss _ targetX targetY _ => in_range targetX targetY
  | ClickError _ _ => True
  end.
Proof.
  intros H (Hc1 & Hc2 & Hf1 & Hf2) Hs.
  set (t := unit_start quiet rnd now s).
  assert (Ht : targets_in_range t).
  { destruct (unit_start_quiet_tables rnd now s) as (_ & _ & _ & _ & Hsome & Hnone).
    fold t in Hsome, Hnone.
    destruct (daily_target s !! isoDate now) as [old|] eqn:El.
    - intros d row Hl. rewrite (Hsome old eq_refl) in Hl. exact (Hs d row Hl).
    - eapply targets_in_range_insert; [exact Hs| |exact (Hnone eq_refl)].
      apply random_coordinates_in_range; assumption. }
  destruct (is_success r) eqn:Hsucc.
  - destruct (handleClick_success_cases _ _ _ _ _ _ _ _ _ H Hsucc)
      as (row & trow & _ & Et & Hcases).
    assert (Htrow : in_range (dt_target_x trow) (dt_target_y trow)).
    { apply (Ht (isoDate now) trow). unfold t, unit_start, quiet. rewrite Et.
      cbn [snd daily_target set_daily_target]. apply lookup_insert_eq. }
    fold t in Hcases. destruct Hcases as [[-> ->]|[-> ->]]; (split; [|exact Htrow]).
    + eapply targets_in_range_insert; [exact Ht| |reflexivity].
      destruct (daily_target t !! isoDate now);
        apply random_coordinates_in_range; assumption.
    + intros d row' Hl. exact (Ht d row' Hl).
  - destruct r as [type message| |]; try discriminate. split; [|exact I].
    destruct (handleClick_error_store _ _ _ _ _ _ _ _ _ _ H) as [[_ ->]|[_ ->]];
      assumption.
Qed.

Lemma handleClick_targets_in_range_witness :
  let r := handleClick quiet rnd0 now0 500 250 "198.51.100.23" store_full in
  random_in_unit_interval rnd0 /\
  targets_in_range store_full /\
  targets_in_range (snd r).
Proof.
  intros r.
  assert (Hrnd : random_in_unit_interval rnd0).
  { repeat split; vm_compute; congruence. }
  assert (Hs : targets_in_range store_full).
  { intros d row Hl. unfold store_full in Hl. cbn [daily_target] in Hl.
    destruct (decide ("2026-03-13" = d)) as [<-|Hne].
    - rewrite lookup_insert_eq in Hl. inversion Hl; subst. unfold in_range; cbn; lia.
    - rewrite lookup_insert_ne in Hl by exact Hne. rewrite lookup_empty in Hl. discriminate. }
  split; [exact Hrnd|]. split; [exact Hs|].
  exact (proj1 (handleClick_targets_in_range rnd0 now0 500 250 "198.51.100.23" store_full
                  (snd r) (fst r) (surjective_pairing r) Hrnd Hs)).
Defined.

End TargetsOnGrid.

(** ** What the clients are told *)

Section CallbackRuns.

Arguments Num.round3 : simpl never.

(** X21: The timer callback broadcasts only after a successful tick, and then
    exactly the amount the store holds, one version and one history entry
    after the store the tick's transaction began in; after a failed tick it
    emits nothing and the store is as the other writers left it. *)
Theorem onAutoIncrement_emits (env : Store -> Store) (now : string) (s s' : Store)
    (emits : list Emit) :
  onAutoIncrement env now s = (emits, s') ->
  (emits = [] /\ s' = env s) \/
  (emits = [IoEmit "jackpot_update" (JackpotUpdate (snapshot_amount s'))] /\
   length (jackpot_history s') = S (length (jackpot_history (env s))) /\
   exists row row',
     jackpot_state (env s) = Some row /\ jackpot_state s' = Some row' /\
     js_version row' = js_version row + 1).
Proof.
  unfold onAutoIncrement. rewrite performAutoIncrement_cases.
  destruct (Num.ltb _ 0 || Num.ltb 10000000 _).
  - intros H. inversion H; subst. left. split; reflexivity.
  - destruct (jackpot_state (env s)) as [row|] eqn:Hj; intros H; inversion H; subst.
    + right. unfold snapshot_amount at 1. cbn [jackpot_state js_current_amount].
      rewrite round3_idem. split; [reflexivity|]. cbn [jackpot_history]. split.
      * rewrite length_app. cbn [length]. lia.
      * exists row. eexists. split; [reflexivity|]. split; reflexivity.
    + left. split; reflexivity.
Qed.

Lemma onAutoIncrement_emits_witness :
  let r := onAutoIncrement rival now0 store0 in
  fst r = [IoEmit "jackpot_update" (JackpotUpdate 100.01)] /\
  snapshot_amount (snd r) = 100.01%Q.
Proof.
  intros r.
  assert (E : fst r = [IoEmit "jackpot_update" (JackpotUpdate 100.01)])
    by (vm_compute; reflexivity).
  split; [exact E|].
  destruct (onAutoIncrement_emits rival now0 store0 (snd r) (fst r) (surjective_pairing r))
    as [[E0 _]|[E1 _]].
  - rewrite E in E0. discriminate.
  - rewrite E in E1. inversion E1. reflexivity.
Defined.

End CallbackRuns.

(** ** Two processes on one file *)

Section BlindWrites.

Arguments Num.round3 : simpl never.

(** X22: The amount a miss or a tick stores is computed from the amount read
    before the transaction.  Whatever another process commits in between,
    the stored and reported amount is that snapshot plus the increment,
    rounded: an increment committed in between is overwritten, not added
    to. *)
Theorem jackpot_write_from_snapshot :
  (forall env rnd now x y userIdentifier s s' distance targetX targetY newJackpotAmount,
      handleClick env rnd now x y userIdentifier s =
        (ClickMiss distance targetX targetY newJackpotAmount, s') ->
      newJackpotAmount = Num.round3 (snapshot_amount s + 0.001) /\
      snapshot_amount s' = newJackpotAmount) /\
  (forall env now s s' newJackpotAmount,
      performAutoIncrement env now s = (TickSuccess newJackpotAmount, s') ->
      newJackpotAmount = Num.round3 (snapshot_amount s + 0.01) /\
      snapshot_amount s' = newJackpotAmount).
Proof.
  split.
  - intros env rnd now x y userIdentifier s s' distance targetX targetY a H.
    destruct (handleClick_success_cases _ _ _ _ _ _ _ _ _ H eq_refl)
      as (row & trow & _ & _ & [[Er _]|[Er ->]]); [discriminate|].
    inversion Er; subst. split; reflexivity.
  - intros env now s s' a. rewrite performAutoIncrement_cases.
    destruct (Num.ltb _ 0 || Num.ltb 10000000 _); [discriminate|].
    destruct (jackpot_state (env s)); [|discriminate].
    intros H. inversion H; subst. split; [reflexivity|].
    unfold snapshot_amount at 1. cbn [jackpot_state js_current_amount].
    apply round3_idem.
Qed.

Lemma jackpot_write_from_snapshot_witness :
  let r := handleClick rival rnd0 now0 10 10 "198.51.100.23" store0 in
  is_miss (fst r) = true /\
  snapshot_amount store0 = 100%Q /\
  snapshot_amount (unit_start rival rnd0 now0 store0) = 100.001%Q /\
  snapshot_amount (snd r) = 100.001%Q /\
  length (jackpot_history (snd r)) = 2%nat.
Proof.
  intros r.
  assert (E : r = (ClickMiss 545.619 500 250 100.001, snd r)) by (vm_compute; reflexivity).
  split; [vm_compute; reflexivity|]. split; [vm_compute; reflexivity|].
  split; [vm_compute; reflexivity|].
  destruct (proj1 jackpot_write_from_snapshot rival rnd0 now0 10 10 "198.51.100.23" store0
              (snd r) 545.619%Q 500 250 100.001%Q E) as [_ H].
  split; [exact H|]. vm_compute. reflexivity.
Defined.

End BlindWrites.

(** * The mutation units, with other writers and a moving clock *)

Section ClockedUnits.

Arguments Num.round3 : simpl never.

(** [handleClick] is [handleClickAt] at one instant. *)
Lemma handleClickAt_steady (env : Store -> Store) (rnd : Random) (now : string)
    (x y : Z) (userIdentifier : string) (s : Store) :
  handleClickAt env rnd (steady now) x y userIdentifier s =
  handleClick env rnd now x y userIdentifier s.
Proof. reflexivity. Qed.

(** The win transaction, case by case: no jackpot row, attempt key taken,
    or all four writes committed together. *)
Lemma winTransactionAt_cases (wonAmount : Q) (userIdentifier today : string)
    (rnd : Random) (clock : Clock) (t : Store) :
  winTransactionAt 100 wonAmount userIdentifier today rnd clock t =
    match jackpot_state t with
    | None => (inl (JsError "Failed to reset jackpot"), t)
    | Some row =>
        if hasAttemptedToday userIdentifier today t
        then (inl (SqliteConstraintUnique "click_attempts"), t)
        else
          (inr tt,
           mkStore
             (Some (mkJackpotRow 100 (at_update clock) userIdentifier (js_version row + 1)))
             (jackpot_history t ++
                [mkHistoryRow (at_log clock) wonAmount 100 "JACKPOT_WIN" userIdentifier])
             (<[isoDate (at_force clock) :=
                  mkTargetRow (Num.random_coordinate (force_u1 rnd))
                    (Num.random_coordinate (force_u2 rnd))
                    match daily_target t !! isoDate (at_force clock) with
                    | Some old => dt_version old + 1
                    | None => 1
                    end]> (daily_target t))
             (<[(userIdentifier, today) := at_record clock]> (click_attempts t)))
    end.
Proof.
  unfold winTransactionAt, transaction, bind, resetJackpot.
  rewrite updateJackpot_accepted by (split; discriminate).
  rewrite round3_base.
  destruct (jackpot_state t) as [row|]; [|reflexivity].
  cbn [negb]. unfold ret at 1.
  unfold logJackpotHistory, forceNewDailyTarget, recordClickAttempt, hasAttemptedToday.
  cbn [click_attempts set_daily_target set_jackpot_history set_jackpot_state
       jackpot_state jackpot_history daily_target].
  destruct (click_attempts t !! (userIdentifier, today)); [reflexivity|].
  destruct (daily_target t !! isoDate (at_force clock)); reflexivity.
Qed.

(** The miss transaction, case by case: amount refused, no jackpot row,
    attempt key taken, or all three writes committed together. *)
Lemma missTransactionAt_cases (currentAmount rounded : Q) (userIdentifier today : string)
    (clock : Clock) (t : Store) :
  missTransactionAt currentAmount rounded userIdentifier today clock t =
    if Num.ltb rounded 0 || Num.ltb 10000000 rounded
    then (inl (JsError "Invalid jackpot amount"), t)
    else
      match jackpot_state t with
      | None => (inl (JsError "Failed to update jackpot on miss"), t)
      | Some row =>
          if hasAttemptedToday userIdentifier today t
          then (inl (SqliteConstraintUnique "click_attempts"), t)
          else
            (inr tt,
             mkStore
               (Some (mkJackpotRow (Num.round3 rounded) (at_update clock) userIdentifier
                        (js_version row + 1)))
               (jackpot_history t ++
                  [mkHistoryRow (at_log clock) currentAmount rounded "INCREMENT"
                     userIdentifier])
               (daily_target t)
               (<[(userIdentifier, today) := at_record clock]> (click_attempts t)))
      end.
Proof.
  unfold missTransactionAt, transaction, bind, updateJackpot.
  destruct (Num.ltb rounded 0 || Num.ltb 10000000 rounded); [reflexivity|].
  destruct (jackpot_state t) as [row|]; [|reflexivity].
  cbn [negb]. unfold ret at 1.
  unfold logJackpotHistory, recordClickAttempt, hasAttemptedToday.
  cbn [click_attempts set_daily_target set_jackpot_history set_jackpot_state
       jackpot_state jackpot_history daily_target].
  destruct (click_attempts t !! (userIdentifier, today)); reflexivity.
Qed.

(** What the target read leaves: the store with, at most, one more row. *)
Lemma getOrCreateDailyTargetPixel_store (u1 u2 : Q) (now : string) (s s1 : Store)
    (targetPixel : TargetPixel) :
  getOrCreateDailyTargetPixel u1 u2 now s = (inr targetPixel, s1) ->
  jackpot_state s1 = jackpot_state s /\
  jackpot_history s1 = jackpot_history s /\
  click_attempts s1 = click_attempts s /\
  (forall d, d <> isoDate now -> daily_target s1 !! d = daily_target s !! d) /\
  (exists trow, daily_target s1 !! isoDate now = Some trow /\
                tp_x targetPixel = dt_target_x trow /\ tp_y targetPixel = dt_target_y trow).
Proof.
  intros H.
  destruct (getOrCreateDailyTargetPixel_inv u1 u2 now s) as (trow & Et & _).
  rewrite Et in H. inversion H; subst. clear H.
  cbn [set_daily_target jackpot_state jackpot_history click_attempts daily_target
       tp_x tp_y].
  repeat (split; [reflexivity|]). split.
  - intros d Hd. apply lookup_insert_ne. congruence.
  - exists trow. rewrite lookup_insert_eq. auto.
Qed.

(** A click that passes validation and the pre-check comes down to the
    target read, the snapshot, the other writers, and one of the two
    transactions. *)
Lemma handleClickAt_resolved (env : Store -> Store) (rnd : Random) (clock : Clock)
    (x y : Z) (userIdentifier : string) (s s1 : Store) (targetPixel : TargetPixel) :
  in_range x y ->
  hasAttemptedToday userIdentifier (isoDate (at_today clock)) s = false ->
  getOrCreateDailyTargetPixel (create_u1 rnd) (create_u2 rnd) (at_target clock) s =
    (inr targetPixel, s1) ->
  let today := isoDate (at_today clock) in
  let failed := ClickError server_error "An unexpected server error occurred." in
  handleClickAt env rnd clock x y userIdentifier s =
    if Qeq_bool (roundedDistance targetPixel x y) 0
    then
      match winTransactionAt 100 (snapshot_amount s) userIdentifier today rnd clock
              (env s1) with
      | (inr _, s') =>
          (ClickWin (roundedDistance targetPixel x y) (tp_x targetPixel) (tp_y targetPixel)
             (snapshot_amount s) 100, s')
      | (inl _, s') => (failed, s')
      end
    else
      match missTransactionAt (snapshot_amount s) (Num.round3 (snapshot_amount s + 0.001))
              userIdentifier today clock (env s1) with
      | (inr _, s') =>
          (ClickMiss (roundedDistance targetPixel x y) (tp_x targetPixel) (tp_y targetPixel)
             (Num.round3 (snapshot_amount s + 0.001)), s')
      | (inl _, s') => (failed, s')
      end.
Proof.
  intros Hr Hg Ht today failed.
  assert (Ha : snapshot_amount s1 = snapshot_amount s).
  { destruct (getOrCreateDailyTargetPixel_store _ _ _ _ _ _ Ht) as (Hj & _).
    unfold snapshot_amount. rewrite Hj. reflexivity. }
  subst today failed.
  unfold handleClickAt. apply in_range_test in Hr. rewrite Hr. cbv zeta. rewrite Hg.
  unfold try_catch, bind at 1. rewrite Ht.
  unfold bind at 1. rewrite getJackpot_eq.
  unfold bind at 1, concurrently. cbn [current_amount]. rewrite Ha.
  destruct (Qeq_bool (roundedDistance targetPixel x y) 0).
  - unfold bind, ret.
    destruct (winTransactionAt _ _ _ _ _ _ _) as [[e|[]] s']; reflexivity.
  - unfold bind, ret.
    destruct (missTransactionAt _ _ _ _ _ _) as [[e|[]] s']; reflexivity.
Qed.

(** A click stopped by one of the two guards leaves the caller's store. *)
Lemma handleClickAt_rejected (env : Store -> Store) (rnd : Random) (clock : Clock)
    (x y : Z) (userIdentifier : string) (s : Store) :
  ~ in_range x y \/ hasAttemptedToday userIdentifier (isoDate (at_today clock)) s = true ->
  exists type message,
    type <> server_error /\
    (type = validation <-> ~ in_range x y) /\
    handleClickAt env rnd clock x y userIdentifier s = (ClickError type message, s).
Proof.
  intros H. unfold handleClickAt.
  destruct (((x <? 0) || (999 <? x) || (y <? 0) || (999 <? y))%Z) eqn:Hr.
  - exists validation, "Invalid coordinates.". split; [discriminate|]. split; [|reflexivity].
    split; [|reflexivity]. intros _ Hin. apply in_range_test in Hin. congruence.
  - apply in_range_test in Hr. destruct H as [H|H]; [contradiction|]. rewrite H.
    exists attempt_limit, "You have already made your attempt for today.".
    split; [discriminate|]. split; [|reflexivity].
    split; [discriminate|]. intros Hn. contradiction.
Qed.

End ClockedUnits.

(** ** Wins and misses *)

Section Outcomes.

Import Num.

Arguments Num.round3 : simpl never.

(** C4, as the code behaves: a click in range by a caller without attempt
    at the pre-check is answered with a win exactly when the rounded distance
    to the target it has read is 0, that is on the target pixel, and the
    transaction commits: the jackpot row exists and the caller's key is still
    free in the store [t] in which the transaction begins.  The transaction
    is all or nothing.  Committed, it leaves [t] with the jackpot row at
    100 in the caller's name and one version higher, one more history entry
    JACKPOT_WIN to the new amount 100, the target row of the date read by
    [forceNewDailyTarget] at the drawn pixel with its version raised by 1
    (version 1 when that date had no row), and the caller's attempt.  The
    [wonAmount] returned and the previous amount logged are the amount read
    before the transaction, which is the amount the reset row held when
    nobody has written the jackpot in between.  Failed, it leaves [t] as it
    was and the answer is the server error. *)
Theorem handleClick_win (env : Store -> Store) (rnd : Random) (clock : Clock)
    (x y : Z) (userIdentifier : string) (s s1 : Store) (targetPixel : TargetPixel) :
  in_range x y ->
  hasAttemptedToday userIdentifier (isoDate (at_today clock)) s = false ->
  getOrCreateDailyTargetPixel (create_u1 rnd) (create_u2 rnd) (at_target clock) s =
    (inr targetPixel, s1) ->
  let today := isoDate (at_today clock) in
  let t := env s1 in
  let r := handleClickAt env rnd clock x y userIdentifier s in
  (is_win (fst r) = true <->
   roundedDistance targetPixel x y = 0%Q /\
   (exists row, jackpot_state t = Some row) /\
   hasAttemptedToday userIdentifier today t = false) /\
  (roundedDistance targetPixel x y = 0%Q <-> tp_x targetPixel = x /\ tp_y targetPixel = y) /\
  (roundedDistance targetPixel x y = 0%Q ->
   forall row,
     jackpot_state t = Some row ->
     hasAttemptedToday userIdentifier today t = false ->
     r = (ClickWin 0 (tp_x targetPixel) (tp_y targetPixel) (snapshot_amount s) 100,
          mkStore
            (Some (mkJackpotRow 100 (at_update clock) userIdentifier (js_version row + 1)))
            (jackpot_history t ++
               [mkHistoryRow (at_log clock) (snapshot_amount s) 100 "JACKPOT_WIN"
                  userIdentifier])
            (<[isoDate (at_force clock) :=
                 mkTargetRow (random_coordinate (force_u1 rnd))
                   (random_coordinate (force_u2 rnd))
                   match daily_target t !! isoDate (at_force clock) with
                   | Some old => dt_version old + 1
                   | None => 1
                   end]> (daily_target t))
            (<[(userIdentifier, today) := at_record clock]> (click_attempts t))) /\
     (jackpot_state t = jackpot_state s -> snapshot_amount s = js_current_amount row)) /\
  (roundedDistance targetPixel x y = 0%Q ->
   jackpot_state t = None \/ hasAttemptedToday userIdentifier today t = true ->
   r = (ClickError server_error "An unexpected server error occurred.", t)).
Proof.
  intros Hr Hg Ht today t r.
  subst r. rewrite (handleClickAt_resolved env rnd clock x y userIdentifier s s1
                      targetPixel Hr Hg Ht).
  fold today. fold t. rewrite winTransactionAt_cases, missTransactionAt_cases.
  pose proof (roundedDistance_test targetPixel x y) as Htest.
  split; [|split; [|split]].
  - destruct (Qeq_bool (roundedDistance targetPixel x y) 0).
    + destruct (jackpot_state t) as [row|].
      * destruct (hasAttemptedToday userIdentifier today t); cbn [fst is_win]; split.
        -- discriminate.
        -- intros (_ & _ & H). discriminate.
        -- intros _. split; [apply Htest; reflexivity|]. split; [eauto|reflexivity].
        -- reflexivity.
      * cbn [fst is_win]. split; [discriminate|]. intros (_ & [row H] & _). discriminate.
    + split.
      * destruct (ltb _ 0 || ltb 10000000 _); [cbn [fst is_win]; discriminate|].
        destruct (jackpot_state t); [|cbn [fst is_win]; discriminate].
        destruct (hasAttemptedToday userIdentifier today t); cbn [fst is_win]; discriminate.
      * intros (E0 & _). apply Htest in E0. discriminate.
  - rewrite <- roundedDistance_zero. rewrite <- Htest. apply Qeq_bool_iff.
  - intros E0 row Hj Hfree. destruct Htest as [_ Hb]. rewrite (Hb E0), Hj, Hfree, E0.
    split; [reflexivity|].
    intros Hsame. unfold snapshot_amount. rewrite <- Hsame. reflexivity.
  - intros E0 Hfail. destruct Htest as [_ Hb]. rewrite (Hb E0).
    destruct Hfail as [Hn|Htaken].
    + rewrite Hn. reflexivity.
    + rewrite Htaken. destruct (jackpot_state t); reflexivity.
Qed.

Lemma handleClick_win_witness :
  let r := handleClickAt rival_tick rnd0 clock_midnight 500 250 "198.51.100.23" store0 in
  in_range 500 250 /\
  hasAttemptedToday "198.51.100.23" (isoDate (at_today clock_midnight)) store0 = false /\
  getOrCreateDailyTargetPixel (create_u1 rnd0) (create_u2 rnd0) (at_target clock_midnight)
    store0 = (inr target0, store0) /\
  roundedDistance target0 500 250 = 0%Q /\
  fst r = ClickWin 0 500 250 100 100 /\
  jackpot_state (snd r) =
    Some (mkJackpotRow 100 "2026-03-15T00:00:00.001Z" "198.51.100.23" 3) /\
  daily_target (snd r) !! "2026-03-14" = Some (mkTargetRow 500 250 1) /\
  daily_target (snd r) !! "2026-03-15" = Some (mkTargetRow 125 750 1) /\
  click_attempts (snd r) !! ("198.51.100.23", "2026-03-14") =
    Some "2026-03-15T00:00:00.004Z".
Proof.
  intros r.
  assert (Hr : in_range 500 250) by (unfold in_range; lia).
  assert (Hg : hasAttemptedToday "198.51.100.23" (isoDate (at_today clock_midnight))
                 store0 = false) by (vm_compute; reflexivity).
  assert (Ht : getOrCreateDailyTargetPixel (create_u1 rnd0) (create_u2 rnd0)
                 (at_target clock_midnight) store0 = (inr target0, store0))
    by (vm_compute; reflexivity).
  assert (Hd : roundedDistance target0 500 250 = 0%Q) by (vm_compute; reflexivity).
  repeat (split; [assumption|]).
  destruct (handleClick_win rival_tick rnd0 clock_midnight 500 250 "198.51.100.23"
              store0 store0 target0 Hr Hg Ht) as (_ & _ & H & _).
  destruct (H Hd (mkJackpotRow 100.01 now0 "system" 2)) as [E _].
  - vm_compute; reflexivity.
  - vm_compute; reflexivity.
  - fold r in E. rewrite E. vm_compute. repeat split; reflexivity.
Defined.

(** C4 as stated fails on the amount won.  A tick of another process
    commits 100.01 after the click has read the jackpot, 100, and before
    its transaction: the win resets a jackpot of 100.01, yet returns, and
    logs as previous amount, 100. *)
Lemma win_carries_amount_read_before :
  let r := handleClick rival_tick rnd0 now0 500 250 "198.51.100.23" store0 in
  jackpot_state (unit_start rival_tick rnd0 now0 store0) =
    Some (mkJackpotRow 100.01 now0 "system" 2) /\
  fst r = ClickWin 0 500 250 100 100 /\
  jackpot_history (snd r) =
    [mkHistoryRow now0 100 100.01 "AUTO_INCREMENT" "system";
     mkHistoryRow now0 100 100 "JACKPOT_WIN" "198.51.100.23"] /\
  ~ (100 == 100.01)%Q.
Proof.
  vm_compute. repeat split; try reflexivity. discriminate.
Qed.



End Outcomes.

(** ** The periodic increment, with other writers *)

Section TickUnits.

Import Num.

Arguments Num.round3 : simpl never.

(** C6, as the code behaves: a successful [performAutoIncrement] stores and
    returns the amount it has read before its transaction plus 0.01,
    rounded: a whole number of thousandths, ten more than read on a ledger of
    whole thousandths, hence an increase of exactly 0.01 when nobody has
    written the jackpot between the read and the transaction.  It succeeds
    exactly when that amount is within 0..10,000,000 and the jackpot row
    exists in the store [t] its transaction begins in; it then leaves [t]
    with the jackpot row at the new amount in the name of "system", one
    version higher, and exactly one more history entry, AUTO_INCREMENT by
    "system" from the amount read to the amount stored; targets and
    attempts are those of [t].  A failed tick leaves [t] as it was. *)
Theorem performAutoIncrement_success (env : Store -> Store) (now : string) (s : Store) :
  let t := env s in
  let r := performAutoIncrement env now s in
  let newAmount := round3 (snapshot_amount s + 0.01) in
  (exists k : Z, newAmount = milli k) /\
  (forall k : Z, snapshot_amount s = milli k -> newAmount = milli (k + 10)) /\
  (forall k : Z, snapshot_amount t = snapshot_amount s -> snapshot_amount s = milli k ->
                 forall a s', r = (TickSuccess a, s') ->
                              snapshot_amount t = milli k /\ snapshot_amount s' = milli (k + 10)) /\
  (forall a s',
      r = (TickSuccess a, s') <->
      a = newAmount /\
      (0 <= newAmount /\ newAmount <= 10000000)%Q /\
      exists row,
        jackpot_state t = Some row /\
        s' = mkStore
               (Some (mkJackpotRow newAmount now "system" (js_version row + 1)))
               (jackpot_history t ++
                  [mkHistoryRow now (snapshot_amount s) newAmount "AUTO_INCREMENT" "system"])
               (daily_target t)
               (click_attempts t)) /\
  (forall type message s',
      r = (TickError type message, s') ->
      s' = t /\ type = server_error /\ message = "Auto increment failed.").
Proof.
  intros t r newAmount.
  assert (Hnew : forall k : Z, snapshot_amount s = milli k -> newAmount = milli (k + 10)).
  { intros k Hk. unfold newAmount. rewrite Hk, <- round3_milli_plus.
    apply round3_comp, Qplus_comp; [reflexivity | vm_compute; reflexivity]. }
  assert (Hiff : forall a s',
             r = (TickSuccess a, s') <->
             a = newAmount /\
             (0 <= newAmount /\ newAmount <= 10000000)%Q /\
             exists row,
               jackpot_state t = Some row /\
               s' = mkStore
                      (Some (mkJackpotRow newAmount now "system" (js_version row + 1)))
                      (jackpot_history t ++
                         [mkHistoryRow now (snapshot_amount s) newAmount
                            "AUTO_INCREMENT" "system"])
                      (daily_target t)
                      (click_attempts t)).
  { intros a s'. subst r. rewrite performAutoIncrement_cases. fold t. fold newAmount.
    destruct (ltb newAmount 0 || ltb 10000000 newAmount) eqn:Hc.
    - split; [discriminate|]. intros (_ & [H0 H1] & _).
      apply ltb_ge in H0, H1. rewrite H0, H1 in Hc. discriminate.
    - apply orb_false_iff in Hc as [H0 H1]. apply ltb_ge in H0, H1.
      destruct (jackpot_state t) as [row|].
      + replace (round3 newAmount) with newAmount
          by (unfold newAmount; symmetry; apply round3_idem).
        split.
        * intros E. inversion E; subst. split; [reflexivity|]. split; [auto|].
          exists row. split; reflexivity.
        * intros (-> & _ & row' & E & ->). inversion E; subst. reflexivity.
      + split; [discriminate|]. intros (_ & _ & row' & E & _). discriminate. }
  split; [eexists; apply round3_is_milli|]. split; [exact Hnew|]. split; [|split].
  - intros k Hsame Hk a s' E. split; [rewrite Hsame; exact Hk|].
    apply Hiff in E as (_ & _ & row & _ & ->).
    unfold snapshot_amount at 1. cbn [jackpot_state js_current_amount]. apply Hnew. exact Hk.
  - exact Hiff.
  - intros type message s'. subst r. rewrite performAutoIncrement_cases. fold t.
    destruct (ltb _ 0 || ltb 10000000 _).
    + intros E. inversion E; subst. auto.
    + destruct (jackpot_state t); intros E; inversion E; subst. auto.
Qed.

Lemma performAutoIncrement_success_witness :
  snapshot_amount (quiet store0) = snapshot_amount store0 /\
  snapshot_amount store0 = milli 100000 /\
  performAutoIncrement quiet now0 store0 =
    (TickSuccess (milli 100010),
     mkStore (Some (mkJackpotRow (milli 100010) now0 "system" 2))
       [mkHistoryRow now0 100 (milli 100010) "AUTO_INCREMENT" "system"]
       (daily_target store0) ∅) /\
  snapshot_amount (snd (performAutoIncrement quiet now0 store0)) = milli (100000 + 10).
Proof.
  assert (Hsame : snapshot_amount (quiet store0) = snapshot_amount store0) by reflexivity.
  assert (Hk : snapshot_amount store0 = milli 100000) by (vm_compute; reflexivity).
  split; [exact Hsame|]. split; [exact Hk|].
  destruct (performAutoIncrement_success quiet now0 store0) as (_ & Hnew & Hinc & Hiff & _).
  assert (E : performAutoIncrement quiet now0 store0 =
              (TickSuccess (milli 100010),
               mkStore (Some (mkJackpotRow (milli 100010) now0 "system" 2))
                 [mkHistoryRow now0 100 (milli 100010) "AUTO_INCREMENT" "system"]
                 (daily_target store0) ∅)).
  { apply Hiff. rewrite (Hnew 100000%Z Hk).
    split; [reflexivity|]. split; [vm_compute; split; discriminate|].
    exists row0. split; vm_compute; reflexivity. }
  split; [exact E|].
  exact (proj2 (Hinc 100000%Z Hsame Hk _ _ E)).
Defined.

(** C6 as stated fails with a second process.  The miss of a caller served
    by another process commits 100.001 after the tick has read 100 and
    before its transaction: the tick succeeds and leaves 100.01, an increase
    of 0.009 over the committed jackpot, not of 0.01. *)
Lemma tick_overwrites_concurrent_miss :
  let r := performAutoIncrement rival now0 store0 in
  snapshot_amount store0 = 100%Q /\
  snapshot_amount (rival store0) = 100.001%Q /\
  fst r = TickSuccess 100.01 /\
  snapshot_amount (snd r) = 100.01%Q /\
  ~ (100.01 == 100.001 + 0.01)%Q.
Proof.
  vm_compute. repeat split; try reflexivity. discriminate.
Qed.

End TickUnits.

(** ** Rounding on ledger amounts *)

Section LedgerRounding.

Import Num.

Arguments Num.round3 : simpl never.

(** X6: On an amount of [k] thousandths, 0 <= k <= 10,000,000,000 (every
    amount a reachable ledger holds), [Math.round(v * 1000) / 1000] returns
    the amount as it is.  The amount is within the limits of
    [updateJackpot], whose own rounding therefore stores exactly the amount
    [handleClick] or [performAutoIncrement] has already rounded. *)
Theorem round3_on_thousandths (k : Z) :
  (0 <= k <= 10000000000)%Z ->
  round3 (milli k) = milli k /\
  (0 <= milli k /\ milli k <= 10000000)%Q /\
  (forall userId now s row,
      jackpot_state s = Some row ->
      updateJackpot (milli k) userId now s =
        (inr true,
         set_jackpot_state (Some (mkJackpotRow (milli k) now userId (js_version row + 1))) s)).
Proof.
  intros [Hk0 Hk1].
  assert (Hfix : round3 (milli k) = milli k).
  { rewrite <- (round3_milli k) at 2. apply round3_comp. apply milli_eq. }
  assert (Hlim : (0 <= milli k /\ milli k <= 10000000)%Q).
  { split.
    - change 0%Q with (milli 0). apply milli_le. lia.
    - change 10000000%Q with (milli 10000000000). apply milli_le. lia. }
  split; [exact Hfix|]. split; [exact Hlim|].
  intros userId now s row Hj.
  rewrite updateJackpot_accepted by exact Hlim. rewrite Hj, Hfix. reflexivity.
Qed.

Lemma round3_on_thousandths_witness :
  (0 <= 150750 <= 10000000000)%Z /\
  round3 (milli 150750) = milli 150750 /\
  (milli 150750 == 150.75)%Q.
Proof.
  assert (H : (0 <= 150750 <= 10000000000)%Z) by lia.
  split; [exact H|]. split; [exact (proj1 (round3_on_thousandths 150750 H))|].
  reflexivity.
Defined.

End LedgerRounding.

(** ** What a click writes, with a moving clock *)

Section ClockedFootprint.

Arguments Num.round3 : simpl never.

(** What a click has left, by its answer: the store it found after an
    error of the guards, the store its transaction began in after the server
    error, and after a success that store with the writes of the
    transaction. *)
Lemma handleClickAt_stores (env : Store -> Store) (rnd : Random) (clock : Clock)
    (x y : Z) (userIdentifier : string) (s s' : Store) (r : ClickResult) :
  handleClickAt env rnd clock x y userIdentifier s = (r, s') ->
  let today := isoDate (at_today clock) in
  let t := unit_start env rnd (at_target clock) s in
  match r with
  | ClickError type _ =>
      (type <> server_error /\ s' = s /\ (type = validation <-> ~ in_range x y)) \/
      (type = server_error /\ s' = t /\ in_range x y)
  | ClickWin _ _ _ _ newBaseJackpotAmount =>
      in_range x y /\ newBaseJackpotAmount = 100%Q /\
      snapshot_amount s' = 100%Q /\
      click_attempts s' = <[(userIdentifier, today) := at_record clock]> (click_attempts t) /\
      exists trow, daily_target s' = <[isoDate (at_force clock) := trow]> (daily_target t)
  | ClickMiss _ _ _ newJackpotAmount =>
      in_range x y /\
      snapshot_amount s' = newJackpotAmount /\
      click_attempts s' = <[(userIdentifier, today) := at_record clock]> (click_attempts t) /\
      daily_target s' = daily_target t
  end.
Proof.
  intros H today t.
  destruct (((x <? 0) || (999 <? x) || (y <? 0) || (999 <? y))%Z) eqn:Hr.
  { assert (Hn : ~ in_range x y) by (intros Hin; apply in_range_test in Hin; congruence).
    destruct (handleClickAt_rejected env rnd clock x y userIdentifier s (or_introl Hn))
      as (type & message & Hne & Hv & E).
    rewrite E in H. inversion H; subst. left. auto. }
  apply in_range_test in Hr.
  destruct (hasAttemptedToday userIdentifier today s) eqn:Hg.
  { destruct (handleClickAt_rejected env rnd clock x y userIdentifier s (or_intror Hg))
      as (type & message & Hne & Hv & E).
    rewrite E in H. inversion H; subst. left. auto. }
  destruct (getOrCreateDailyTargetPixel (create_u1 rnd) (create_u2 rnd) (at_target clock) s)
    as [[e|targetPixel] s1] eqn:Et.
  { destruct (getOrCreateDailyTargetPixel_inv (create_u1 rnd) (create_u2 rnd)
                (at_target clock) s) as (trow & E & _).
    rewrite E in Et. discriminate. }
  assert (Es : t = env s1) by (unfold t, unit_start; rewrite Et; reflexivity).
  rewrite (handleClickAt_resolved env rnd clock x y userIdentifier s s1 targetPixel
             Hr Hg Et) in H.
  rewrite winTransactionAt_cases, missTransactionAt_cases in H. rewrite <- Es in H.
  fold today in H.
  destruct (Qeq_bool _ 0).
  - destruct (jackpot_state t) as [row|]; [|inversion H; subst; right; auto].
    destruct (hasAttemptedToday userIdentifier today t);
      [inversion H; subst; right; auto|].
    inversion H; subst. cbn [click_attempts daily_target].
    split; [exact Hr|]. split; [reflexivity|]. split; [reflexivity|].
    split; [reflexivity|]. eexists. reflexivity.
  - destruct (Num.ltb _ 0 || Num.ltb 10000000 _); [inversion H; subst; right; auto|].
    destruct (jackpot_state t) as [row|]; [|inversion H; subst; right; auto].
    destruct (hasAttemptedToday userIdentifier today t);
      [inversion H; subst; right; auto|].
    inversion H; subst. cbn [click_attempts daily_target].
    split; [exact Hr|]. split; [|split; reflexivity].
    unfold snapshot_amount at 1. cbn [jackpot_state js_current_amount]. apply round3_idem.
Qed.

(** X12: A click served alone writes, of the attempts, at most the
    caller's own key under the date [handleClick] has read for [today]; and
    of the targets at most the row of the date [getOrCreateDailyTargetPixel]
    has read and, on a win, the row of the date [forceNewDailyTarget] has
    read.  These are one date unless the call straddles UTC midnight.
    Every other attempt and every other target is as before the call. *)
Theorem handleClick_footprint (rnd : Random) (clock : Clock) (x y : Z)
    (userIdentifier : string) (s s' : Store) (r : ClickResult) :
  handleClickAt quiet rnd clock x y userIdentifier s = (r, s') ->
  (forall k, k <> (userIdentifier, isoDate (at_today clock)) ->
             click_attempts s' !! k = click_attempts s !! k) /\
  (forall d, d <> isoDate (at_target clock) ->
             (is_win r = true -> d <> isoDate (at_force clock)) ->
             daily_target s' !! d = daily_target s !! d).
Proof.
  intros H.
  destruct (unit_start_quiet_tables rnd (at_target clock) s) as (_ & _ & Ha & Ht & _).
  pose proof (handleClickAt_stores _ _ _ _ _ _ _ _ _ H) as Hs. cbv zeta in Hs.
  destruct r as [type message|distance targetX targetY wonAmount base
                |distance targetX targetY newAmount].
  - destruct Hs as [(_ & -> & _)|(_ & -> & _)]; [split; reflexivity|].
    rewrite Ha. split; [reflexivity|]. intros d Hd _. apply Ht. exact Hd.
  - destruct Hs as (_ & _ & _ & Hatt & trow & Htar). rewrite Hatt, Htar, Ha. split.
    + intros k Hk. apply lookup_insert_ne. congruence.
    + intros d Hd Hf. rewrite lookup_insert_ne by (specialize (Hf eq_refl); congruence).
      apply Ht. exact Hd.
  - destruct Hs as (_ & _ & Hatt & Htar). rewrite Hatt, Htar, Ha. split.
    + intros k Hk. apply lookup_insert_ne. congruence.
    + intros d Hd _. apply Ht. exact Hd.
Qed.

Lemma handleClick_footprint_witness :
  let r := handleClickAt quiet rnd0 clock_midnight 500 250 "198.51.100.23" store0 in
  is_win (fst r) = true /\
  click_attempts (snd r) !! ("198.51.100.23", "2026-03-15") = None /\
  daily_target (snd r) !! "2026-03-13" = None /\
  daily_target (snd r) !! "2026-03-15" = Some (mkTargetRow 125 750 1).
Proof.
  intros r.
  destruct (handleClick_footprint rnd0 clock_midnight 500 250 "198.51.100.23" store0
              (snd r) (fst r) (surjective_pairing r)) as [Ha Ht].
  split; [vm_compute; reflexivity|]. split; [|split].
  - rewrite Ha by (vm_compute; discriminate). vm_compute. reflexivity.
  - rewrite Ht; [vm_compute; reflexivity | vm_compute; discriminate
                | intros _; vm_compute; discriminate].
  - vm_compute. reflexivity.
Defined.

End ClockedFootprint.

(** ** What the click callback tells the clients *)

Section ClickCallback.

Arguments Num.round3 : simpl never.





End ClickCallback.
